(** * deploy.py: the portfolio deployer, embedded and verified

    The script is a linear orchestration of calls into the outside world
    (the GitHub REST API through [requests], the local file system through
    [pathlib]/[shutil], git through GitPython, the console).  The embedding
    keeps that shape: every external call is an [Event]; a Python function
    is a finite tree of events ([Prog]) whose leaves are either a returned
    value or a raised exception; [run] executes a tree against an arbitrary
    environment and records the calls made with their answers.  All
    theorems quantify over the environment. *)

From Stdlib Require Import String Ascii List ZArith Bool Lia.
From Stdlib Require Import DecimalString.
Import ListNotations.
Local Open Scope string_scope.
Local Open Scope Z_scope.
Set Warnings "-register-all".

(** ** Python values and strings *)

Module Py.

(** The JSON values that travel in request bodies and in [resp.json()]. *)
Inductive Json : Type :=
| JNull
| JBool (b : bool)
| JNum (n : Z)
| JStr (s : string)
| JList (l : list Json)
| JDict (d : list (string * Json)).

(** Exceptions.  [SystemExit] is what [sys.exit(msg)] raises: the message
    goes to stderr and the exit status is 1.  It is a [BaseException], so
    no [except git.exc.GitCommandError] catches it. *)
Inductive exn : Type :=
| SystemExit (msg : string)
| GitCommandError (stderr : string)
| OtherError (name : string) (msg : string).

Inductive outcome (A : Type) : Type :=
| Ok (a : A)
| Raise (e : exn).
Arguments Ok {A} a.
Arguments Raise {A} e.

Definition is_GitCommandError (e : exn) : bool :=
  match e with GitCommandError _ => true | _ => false end.

(** [f"{n}"] for an [int]. *)
Definition str_of_int (n : Z) : string := NilZero.string_of_int (Z.to_int n).
Arguments str_of_int : simpl never.

(** [d[key]] on a dict kept in insertion order. *)
Fixpoint dict_get (key : string) (d : list (string * Json)) : option Json :=
  match d with
  | [] => None
  | (k, v) :: d' => if String.eqb k key then Some v else dict_get key d'
  end.

(** [v[key]] on an arbitrary JSON value. *)
Definition subscript (v : Json) (key : string) : outcome Json :=
  match v with
  | JDict d =>
      match dict_get key d with
      | Some x => Ok x
      | None => Raise (OtherError "KeyError" key)
      end
  | _ => Raise (OtherError "TypeError" key)
  end.

(** [s.replace(old, new)] for a non-empty [old]: occurrences are replaced
    from left to right and do not overlap.  [skip] counts the characters
    of the occurrence just replaced that are still to be dropped. *)
Fixpoint replace_from (old new : string) (skip : nat) (s : string) : string :=
  match s with
  | EmptyString => EmptyString
  | String c s' =>
      match skip with
      | S n => replace_from old new n s'
      | O =>
          if String.prefix old s
          then new ++ replace_from old new (Nat.pred (String.length old)) s'
          else String c (replace_from old new O s')
      end
  end.

Definition replace (old new s : string) : string := replace_from old new O s.

(** [old in s]. *)
Fixpoint occurs (old s : string) : bool :=
  match s with
  | EmptyString => String.prefix old EmptyString
  | String _ s' => String.prefix old s || occurs old s'
  end.

(** [v.replace(old, new)] on a value that need not be a [str]. *)
Definition value_replace (v : Json) (old new : string) : outcome string :=
  match v with
  | JStr s => Ok (replace old new s)
  | _ => Raise (OtherError "AttributeError" "replace")
  end.

(** [a / b] on POSIX paths, without normalisation. *)
Definition path_join (a b : string) : string :=
  if String.prefix "/" b then b
  else if String.eqb a "/" then a ++ b
  else a ++ "/" ++ b.

End Py.
Import Py.

(** ** The outside world *)

(** What [requests] hands back: the status, the body text and the result
    of [resp.json()] ([None] when the body does not parse). *)
Record Response : Type := mkResponse {
  status_code : Z;
  text : string;
  json : option Json
}.

Definition resp_json (r : Response) : outcome Json :=
  match json r with
  | Some v => Ok v
  | None => Raise (OtherError "JSONDecodeError" (text r))
  end.

(** One constructor per external call of the script; the index is the
    type of the answer.  Calls that can raise answer with an [outcome]. *)
Inductive Event : Type -> Type :=
| Print (line : string) : Event unit
| Request (method url : string) (headers : list (string * string))
    (body : option Json) (timeout : Z) : Event (outcome Response)
| PathHome : Event string
| PathExists (p : string) : Event bool
| RmTree (p : string) : Event (outcome unit)
| MkDir (p : string) (parents : bool) : Event (outcome unit)
| RepoInit (p : string) : Event (outcome unit)
| ConfigSet (section option value : string) : Event (outcome unit)
| IsDir (p : string) : Event bool
| IsFile (p : string) : Event bool
| CopyTree (src dst : string) (dirs_exist_ok : bool) : Event (outcome unit)
| Copy2 (src dst : string) : Event (outcome unit)
| GitAdd (all : bool) : Event (outcome unit)
| IndexCommit (message : string) : Event (outcome unit)
| CreateRemote (name url : string) : Event (outcome unit)
| RemoteLookup (name : string) : Event (outcome unit)
| RemoteSetUrl (name url : string) : Event (outcome unit)
| Push (remote refspec : string) (force : bool) : Event (outcome unit)
| GitBranch (args : list string) : Event (outcome unit)
| Sleep (seconds : Z) : Event unit
| BrowserOpen (url : string) : Event bool.

(** A call together with the answer it received. *)
Inductive Entry : Type :=
| Called {X : Type} (e : Event X) (answer : X).

(** ** Programs *)

Inductive Prog (A : Type) : Type :=
| Ret (o : outcome A)
| Vis {X : Type} (e : Event X) (k : X -> Prog A).
Arguments Ret {A} o.
Arguments Vis {A X} e k.

Fixpoint bind {A B : Type} (p : Prog A) (f : A -> Prog B) : Prog B :=
  match p with
  | Ret (Ok a) => f a
  | Ret (Raise e) => Ret (Raise e)
  | Vis e k => Vis e (fun x => bind (k x) f)
  end.

(** [try: p  except <catches>: handler]. *)
Fixpoint try_except {A : Type} (p : Prog A) (catches : exn -> bool)
    (handler : Prog A) : Prog A :=
  match p with
  | Ret (Ok a) => Ret (Ok a)
  | Ret (Raise e) => if catches e then handler else Ret (Raise e)
  | Vis e k => Vis e (fun x => try_except (k x) catches handler)
  end.

Definition ret {A : Type} (a : A) : Prog A := Ret (Ok a).
Definition raise {A : Type} (e : exn) : Prog A := Ret (Raise e).
Definition lift {A : Type} (o : outcome A) : Prog A := Ret o.
(** A call that cannot raise. *)
Definition call {X : Type} (e : Event X) : Prog X := Vis e (fun x => Ret (Ok x)).
(** A call whose exception, if any, propagates. *)
Definition attempt {X : Type} (e : Event (outcome X)) : Prog X := Vis e (fun o => Ret o).

Definition print (line : string) : Prog unit := call (Print line).
Definition sys_exit {A : Type} (msg : string) : Prog A := raise (SystemExit msg).

Declare Scope prog_scope.
Delimit Scope prog_scope with prog.
Notation "x <- p ;; q" := (bind p (fun x => q))
  (at level 61, p at next level, right associativity) : prog_scope.
Notation "p ;; q" := (bind p (fun _ => q))
  (at level 61, right associativity) : prog_scope.
Local Open Scope prog_scope.

(** ** Running a program in an environment *)

Section Run.
Variable World : Type.
Variable handle : forall X : Type, Event X -> World -> X * World.

Fixpoint run {A : Type} (p : Prog A) (w : World) : outcome A * World * list Entry :=
  match p with
  | Ret o => (o, w, [])
  | Vis e k =>
      let (x, w1) := handle _ e w in
      let '(o, w2, tr) := run (k x) w1 in
      (o, w2, Called e x :: tr)
  end.

Definition result {A : Type} (p : Prog A) (w : World) : outcome A := fst (fst (run p w)).
Definition trace {A : Type} (p : Prog A) (w : World) : list Entry := snd (run p w).
End Run.

(** The status the process ends with. *)
Definition exit_status {A : Type} (o : outcome A) : Z :=
  match o with
  | Ok _ => 0
  | Raise _ => 1
  end.

(** ** The script *)

(** [PORTFOLIO_FILES]. *)
Definition PORTFOLIO_FILES : list string := ["index.html"].

(** The [requests.request(...)] call that [github_api] makes. *)
Definition api_request (method path token : string) (body : option Json)
  : Event (outcome Response) :=
  Request method ("https://api.github.com" ++ path)
    [("Authorization", "Bearer " ++ token);
     ("Accept", "application/vnd.github+json");
     ("X-GitHub-Api-Version", "2022-11-28")]
    body 15.

(** [github_api(method, path, token, json)]. *)
Definition github_api (method path token : string) (body : option Json) : Prog Response :=
  attempt (api_request method path token body).

(** The three requests of the script. *)
Definition existence_request (username repo token : string) : Event (outcome Response) :=
  api_request "GET" ("/repos/" ++ username ++ "/" ++ repo) token None.

(** [resp.json()["clone_url"]]. *)
Definition clone_url (resp : Response) : outcome Json :=
  match resp_json resp with
  | Ok v => subscript v "clone_url"
  | Raise e => Raise e
  end.

Definition create_payload (username repo : string) (private : bool) : Json :=
  JDict [("name", JStr repo);
         ("description", JStr "Nga Do — Human-Centered AI Researcher Portfolio");
         ("homepage", JStr ("https://" ++ username ++ ".github.io"));
         ("private", JBool private);
         ("auto_init", JBool false)].

Definition creation_request (username repo token : string) (private : bool)
  : Event (outcome Response) :=
  api_request "POST" "/user/repos" token (Some (create_payload username repo private)).

(** [ensure_repo_exists(username, repo, token, private)]. *)
Definition ensure_repo_exists (username repo token : string) (private : bool) : Prog Json :=
  resp <- github_api "GET" ("/repos/" ++ username ++ "/" ++ repo) token None ;;
  if status_code resp =? 200 then
    print ("  ✓ Repo '" ++ repo ++ "' already exists on GitHub.") ;;
    lift (clone_url resp)
  else
    print ("  Creating repo '" ++ repo ++ "' on GitHub...") ;;
    resp <- github_api "POST" "/user/repos" token (Some (create_payload username repo private)) ;;
    if negb ((status_code resp =? 200) || (status_code resp =? 201)) then
      sys_exit ("  ✗ Could not create repo: " ++ str_of_int (status_code resp) ++ " " ++ text resp)
    else
      print "  ✓ Repo created." ;;
      lift (clone_url resp).

Definition pages_payload : Json :=
  JDict [("source", JDict [("branch", JStr "main"); ("path", JStr "/")])].

Definition pages_request (username repo token : string) : Event (outcome Response) :=
  api_request "POST" ("/repos/" ++ username ++ "/" ++ repo ++ "/pages") token (Some pages_payload).

(** [enable_github_pages(username, repo, token)]. *)
Definition enable_github_pages (username repo token : string) : Prog string :=
  resp <- github_api "POST" ("/repos/" ++ username ++ "/" ++ repo ++ "/pages") token
            (Some pages_payload) ;;
  if (status_code resp =? 201) || (status_code resp =? 422) then
    let url := if String.eqb repo (username ++ ".github.io")
               then "https://" ++ username ++ ".github.io/"
               else "https://" ++ username ++ ".github.io/" ++ repo in
    print ("  ✓ GitHub Pages enabled → " ++ url) ;;
    ret url
  else
    print ("  ⚠ Pages API returned " ++ str_of_int (status_code resp) ++ ": " ++ text resp) ;;
    print ("    You can enable Pages manually at: https://github.com/"
             ++ username ++ "/" ++ repo ++ "/settings/pages") ;;
    ret ("https://" ++ username ++ ".github.io/" ++ repo).

Definition nl : string := String (ascii_of_nat 10) EmptyString.
Definition rule : string := "━━━━━━━━━━━━━━━━━━━━━━━━━━━━━━━━━━━━━━━━".

(** [deploy], section 2: the local repository (it returns [local_dir]). *)
Definition prepare_local (username repo : string) : Prog string :=
  print (nl ++ "[2/5] Preparing local repository...") ;;
  home <- call PathHome ;;
  let local_dir := path_join home (repo ++ "_deploy") in
  present <- call (PathExists local_dir) ;;
  (if present : bool then attempt (RmTree local_dir) else ret tt) ;;
  attempt (MkDir local_dir true) ;;
  attempt (RepoInit local_dir) ;;
  attempt (ConfigSet "user" "name" username) ;;
  attempt (ConfigSet "user" "email" (username ++ "@users.noreply.github.com")) ;;
  print ("  ✓ Initialized git repo at " ++ local_dir) ;;
  ret local_dir.

(** One turn of the [for item in PORTFOLIO_FILES] loop. *)
Definition copy_item (source_dir local_dir item : string) : Prog unit :=
  let src := path_join source_dir item in
  let dst := path_join local_dir item in
  is_dir <- call (IsDir src) ;;
  if is_dir : bool then
    attempt (CopyTree src dst true) ;;
    print ("  ✓ Copied directory: " ++ item)
  else
    is_file <- call (IsFile src) ;;
    if is_file : bool then
      attempt (Copy2 src dst) ;;
      print ("  ✓ Copied file: " ++ item)
    else
      print ("  ⚠ Skipping missing file: " ++ item).

(** The loop itself, over an arbitrary manifest. *)
Fixpoint copy_items (source_dir local_dir : string) (items : list string) : Prog unit :=
  match items with
  | [] => ret tt
  | item :: rest => copy_item source_dir local_dir item ;; copy_items source_dir local_dir rest
  end.

(** [deploy], section 3: the portfolio files. *)
Definition copy_portfolio (source_dir local_dir : string) : Prog unit :=
  print (nl ++ "[3/5] Copying portfolio files...") ;;
  copy_items source_dir local_dir PORTFOLIO_FILES.

(** The two [try] statements of section 4. *)
Definition attach_remote (authed_url : string) : Prog unit :=
  try_except (attempt (CreateRemote "origin" authed_url)) is_GitCommandError
    (attempt (RemoteLookup "origin") ;;
     attempt (RemoteSetUrl "origin" authed_url)).

Definition push_main : Prog unit :=
  try_except (attempt (Push "origin" "main:main" true)) is_GitCommandError
    (attempt (GitBranch ["-M"; "main"]) ;;
     attempt (Push "origin" "main:main" true)).

(** [deploy], section 4: commit and push. *)
Definition commit_and_push (remote_url : Json) (token : string) : Prog unit :=
  print (nl ++ "[4/5] Committing and pushing to GitHub...") ;;
  attempt (GitAdd true) ;;
  attempt (IndexCommit "Deploy portfolio 🚀") ;;
  authed_url <- lift (value_replace remote_url "https://" ("https://" ++ token ++ "@")) ;;
  attach_remote authed_url ;;
  push_main ;;
  print "  ✓ Pushed to GitHub.".

(** [deploy], from "Done" to the end. *)
Definition report (pages_url : string) (open_browser : bool) : Prog unit :=
  print (nl ++ rule) ;;
  print "  ✅ Deployment complete!" ;;
  print "  🌐 Your portfolio will be live at:" ;;
  print ("     " ++ pages_url) ;;
  print "  ⏳ GitHub Pages can take 1–2 minutes to publish." ;;
  print (rule ++ nl) ;;
  if open_browser then
    print "  Opening browser in 5 seconds..." ;;
    call (Sleep 5) ;;
    call (BrowserOpen pages_url) ;;
    ret tt
  else ret tt.

(** [deploy(username, repo, token, source_dir, open_browser)]. *)
Definition deploy (username repo token source_dir : string) (open_browser : bool) : Prog unit :=
  print (nl ++ rule) ;;
  print "  Nga Do — Portfolio Deployer" ;;
  print (rule ++ nl) ;;
  print "[1/5] Checking GitHub repository..." ;;
  remote_url <- ensure_repo_exists username repo token false ;;
  local_dir <- prepare_local username repo ;;
  copy_portfolio source_dir local_dir ;;
  commit_and_push remote_url token ;;
  print (nl ++ "[5/5] Enabling GitHub Pages...") ;;
  pages_url <- enable_github_pages username repo token ;;
  report pages_url open_browser.

(** The command line as [argparse] accepts it ([--username] is required,
    so it is always there) and the part of the process environment that
    [main] reads. *)
Record Argv : Type := mkArgv {
  opt_username : string;
  opt_repo : option string;
  opt_token : option string;
  opt_source : option string;
  opt_no_browser : bool
}.

Record Environ : Type := mkEnviron {
  GITHUB_TOKEN : option string;
  script_parent : string
}.

Record Namespace : Type := mkNamespace {
  username : string;
  repo : string;
  token : string;
  source : string;
  no_browser : bool
}.

Definition from_option {A : Type} (default : A) (o : option A) : A :=
  match o with Some a => a | None => default end.

(** [parser.parse_args()] with the defaults of the [add_argument] calls. *)
Definition parse_args (argv : Argv) (env : Environ) : Namespace :=
  {| username := opt_username argv;
     repo := from_option "portfolio" (opt_repo argv);
     token := from_option (from_option "" (GITHUB_TOKEN env)) (opt_token argv);
     source := from_option (script_parent env) (opt_source argv);
     no_browser := opt_no_browser argv |}.

Definition token_required : string :=
  "✗ GitHub token required." ++ nl ++
  "  Pass --token YOUR_TOKEN  or  export GITHUB_TOKEN=YOUR_TOKEN" ++ nl ++ nl ++
  "  Create one at: github.com → Settings → Developer Settings → Personal Access Tokens" ++ nl ++
  "  Required scopes: repo, write:pages".

(** [main()]. *)
Definition main (argv : Argv) (env : Environ) : Prog unit :=
  let args := parse_args argv env in
  if String.eqb (token args) "" then sys_exit token_required
  else deploy (username args) (repo args) (token args) (source args) (negb (no_browser args)).

(** ** Observing a run *)

Fixpoint collect {Y : Type} (f : Entry -> option Y) (tr : list Entry) : list Y :=
  match tr with
  | [] => []
  | en :: tr' =>
      match f en with
      | Some y => y :: collect f tr'
      | None => collect f tr'
      end
  end.

(** Method, URL and answer of an HTTP request. *)
Definition request_info (en : Entry) : option (string * string * outcome Response) :=
  match en with
  | Called e a =>
      match e in Event T return T -> option (string * string * outcome Response) with
      | Request m u _ _ _ => fun r => Some (m, u, r)
      | _ => fun _ => None
      end a
  end.

(** The HTTP requests of a run, in order. *)
Definition requests (tr : list Entry) : list (string * string * outcome Response) :=
  collect request_info tr.

(** The answer to a request with this method and URL. *)
Definition request_answer (method url : string) (en : Entry) : option (outcome Response) :=
  match request_info en with
  | Some (m, u, r) => if String.eqb m method && String.eqb u url then Some r else None
  | None => None
  end.

(** The answers to the creation requests ([POST /user/repos]) of a run. *)
Definition creations (tr : list Entry) : list (outcome Response) :=
  collect (request_answer "POST" "https://api.github.com/user/repos") tr.

(** A push: remote, refspec, [force] and the answer. *)
Definition push_call (en : Entry) : option (string * string * bool * outcome unit) :=
  match en with
  | Called e a =>
      match e in Event T return T -> option (string * string * bool * outcome unit) with
      | Push remote refspec force => fun r => Some (remote, refspec, force, r)
      | _ => fun _ => None
      end a
  end.

(** The pushes of a run, in order. *)
Definition pushes (tr : list Entry) : list (string * string * bool * outcome unit) :=
  collect push_call tr.

(** What the run did after its first push. *)
Fixpoint after_first_push (tr : list Entry) : list Entry :=
  match tr with
  | [] => []
  | en :: tr' =>
      match push_call en with
      | Some _ => tr'
      | None => after_first_push tr'
      end
  end.

(** The [is_file()] checks of a run: path and answer. *)
Definition file_check (en : Entry) : option (string * bool) :=
  match en with
  | Called e a =>
      match e in Event T return T -> option (string * bool) with
      | IsFile p => fun b => Some (p, b)
      | _ => fun _ => None
      end a
  end.

Definition file_checks (tr : list Entry) : list (string * bool) := collect file_check tr.

(** The "Skipping missing file" lines of a run. *)
Definition warning_line (en : Entry) : option string :=
  match en with
  | Called e _ =>
      match e with
      | Print line =>
          if String.prefix "  ⚠ Skipping missing file: " line then Some line else None
      | _ => None
      end
  end.

Definition warnings (tr : list Entry) : list string := collect warning_line tr.

(** The copies of a run that went through: source and destination. *)
Definition copy_done (en : Entry) : option (string * string) :=
  match en with
  | Called e a =>
      match e in Event T return T -> option (string * string) with
      | CopyTree src dst _ =>
          fun r => match r with Ok _ => Some (src, dst) | Raise _ => None end
      | Copy2 src dst =>
          fun r => match r with Ok _ => Some (src, dst) | Raise _ => None end
      | _ => fun _ => None
      end a
  end.

Definition copies (tr : list Entry) : list (string * string) := collect copy_done tr.

(** What a run did to the remotes of the local repository. *)
Inductive RemoteCall : Type :=
| Created (name url : string) (answer : outcome unit)
| Looked (name : string) (answer : outcome unit)
| UrlSet (name url : string) (answer : outcome unit).

Definition remote_call (en : Entry) : option RemoteCall :=
  match en with
  | Called e a =>
      match e in Event T return T -> option RemoteCall with
      | CreateRemote n u => fun r => Some (Created n u r)
      | RemoteLookup n => fun r => Some (Looked n r)
      | RemoteSetUrl n u => fun r => Some (UrlSet n u r)
      | _ => fun _ => None
      end a
  end.

Definition remote_calls (tr : list Entry) : list RemoteCall := collect remote_call tr.

(** [needle in hay]. *)
Definition Infix (needle hay : string) : Prop :=
  exists before after, hay = before ++ needle ++ after.


(** ** Every run at once *)

(** [wp p Q]: whatever the environment answers, the outcome and the trace
    of [p] satisfy [Q]. *)
Fixpoint wp {A : Type} (p : Prog A) (Q : outcome A -> list Entry -> Prop) : Prop :=
  match p with
  | Ret o => Q o []
  | Vis e k => forall x, wp (k x) (fun o tr => Q o (Called e x :: tr))
  end.

(** ** What the claims say of a run *)

(** The runs of the copy loop over a manifest: each entry is copied as a
    directory, copied as a file, or skipped with one warning; only a copy
    that raises ends the loop early. *)
Inductive Staging (source_dir local_dir : string)
  : list string -> outcome unit -> list Entry -> Prop :=
| staging_done : Staging source_dir local_dir [] (Ok tt) []
| staging_dir (item : string) (rest : list string) (o : outcome unit) (tr : list Entry) :
    Staging source_dir local_dir rest o tr ->
    Staging source_dir local_dir (item :: rest) o
      (Called (IsDir (path_join source_dir item)) true
       :: Called (CopyTree (path_join source_dir item) (path_join local_dir item) true) (Ok tt)
       :: Called (Print ("  ✓ Copied directory: " ++ item)) tt
       :: tr)
| staging_file (item : string) (rest : list string) (o : outcome unit) (tr : list Entry) :
    Staging source_dir local_dir rest o tr ->
    Staging source_dir local_dir (item :: rest) o
      (Called (IsDir (path_join source_dir item)) false
       :: Called (IsFile (path_join source_dir item)) true
       :: Called (Copy2 (path_join source_dir item) (path_join local_dir item)) (Ok tt)
       :: Called (Print ("  ✓ Copied file: " ++ item)) tt
       :: tr)
| staging_missing (item : string) (rest : list string) (o : outcome unit) (tr : list Entry) :
    Staging source_dir local_dir rest o tr ->
    Staging source_dir local_dir (item :: rest) o
      (Called (IsDir (path_join source_dir item)) false
       :: Called (IsFile (path_join source_dir item)) false
       :: Called (Print ("  ⚠ Skipping missing file: " ++ item)) tt
       :: tr)
| staging_dir_raises (item : string) (rest : list string) (e : exn) :
    Staging source_dir local_dir (item :: rest) (Raise e)
      [Called (IsDir (path_join source_dir item)) true;
       Called (CopyTree (path_join source_dir item) (path_join local_dir item) true) (Raise e)]
| staging_file_raises (item : string) (rest : list string) (e : exn) :
    Staging source_dir local_dir (item :: rest) (Raise e)
      [Called (IsDir (path_join source_dir item)) false;
       Called (IsFile (path_join source_dir item)) true;
       Called (Copy2 (path_join source_dir item) (path_join local_dir item)) (Raise e)].

(** A missing [index.html] in a run of [deploy]: one warning, and the run
    goes on to stage and commit. *)
Definition missing_rule (source_dir : string) (o : outcome unit) (tr : list Entry) : Prop :=
  In (path_join source_dir "index.html", false) (file_checks tr) ->
  warnings tr = ["  ⚠ Skipping missing file: index.html"] /\
  exists added, In (Called (GitAdd true) added) tr.

(** The pushes of a run of [deploy] are force-pushes of [main:main] to
    [origin].  When the first one raises [GitCommandError], the branch is
    renamed next; if that raises, the run ends there; if not, one more
    push follows, and its exception, if any, ends the run. *)
Definition retry_rule (o : outcome unit) (tr : list Entry) : Prop :=
  Forall (fun p => fst p = ("origin", "main:main", true)) (pushes tr) /\
  forall stderr rest,
    pushes tr = ("origin", "main:main", true, Raise (GitCommandError stderr)) :: rest ->
    exists renamed,
      hd_error (after_first_push tr) = Some (Called (GitBranch ["-M"; "main"]) renamed) /\
      (forall e, renamed = Raise e -> rest = [] /\ o = Raise e) /\
      (renamed = Ok tt ->
       exists second,
         rest = [("origin", "main:main", true, second)] /\
         hd_error (tl (after_first_push tr))
         = Some (Called (Push "origin" "main:main" true) second) /\
         forall e, second = Raise e -> o = Raise e /\ exit_status o <> 0).

(** A pages call answered 201 or 422 in a run of [deploy]: the run ends
    well and the URL of the convention is the one reported. *)
Definition pages_rule (username repo : string) (o : outcome unit) (tr : list Entry) : Prop :=
  forall resp,
    In ("POST", "https://api.github.com/repos/" ++ username ++ "/" ++ repo ++ "/pages", Ok resp)
       (requests tr) ->
    status_code resp = 201 \/ status_code resp = 422 ->
    o = Ok tt /\
    In (Called (Print ("     " ++ (if String.eqb repo (username ++ ".github.io")
                                  then "https://" ++ username ++ ".github.io/"
                                  else "https://" ++ username ++ ".github.io/" ++ repo))) tt) tr.

(** Stretches of a run that a rule need not look at: nothing pushed, no
    pages request sent, no file looked for and nothing warned of. *)
Definition no_push (tr : list Entry) : Prop := pushes tr = [].

Definition no_pages_request (username repo : string) (tr : list Entry) : Prop :=
  forall answer,
    ~ In ("POST", "https://api.github.com/repos/" ++ username ++ "/" ++ repo ++ "/pages", answer)
         (requests tr).

Definition no_file_check (tr : list Entry) : Prop := file_checks tr = [] /\ warnings tr = [].

(** A rule that holds of a run holds of it after such a stretch, and
    holds of a run that such a stretch ends by an exception. *)
Definition Stable (R : outcome unit -> list Entry -> Prop) (quiet : list Entry -> Prop) : Prop :=
  (forall o t tr, quiet t -> R o tr -> R o (t ++ tr)%list) /\
  (forall e t, quiet t -> R (Raise e) t).



(** ** A scripted environment, to run the script on concrete inputs *)

Module Demo.

Record World : Type := mkWorld {
  get_status : Z;          (* status of the existence query *)
  create_status : Z;       (* status of the creation request *)
  pages_status : Z;        (* status of the pages request *)
  failing_pushes : nat;    (* how many pushes still fail *)
  index_is_file : bool     (* is there an index.html at the source? *)
}.

Definition body : Json :=
  JDict [("name", JStr "portfolio");
         ("clone_url", JStr "https://github.com/alice/portfolio.git")].

Definition response (status : Z) : Response :=
  {| status_code := status; text := "{...}"; json := Some body |}.

(** A repository that has been created is there from then on. *)
Definition created (w : World) : World :=
  {| get_status := 200; create_status := create_status w;
     pages_status := pages_status w; failing_pushes := failing_pushes w;
     index_is_file := index_is_file w |}.

Definition pushed (n : nat) (w : World) : World :=
  {| get_status := get_status w; create_status := create_status w;
     pages_status := pages_status w; failing_pushes := n;
     index_is_file := index_is_file w |}.

Definition handle (X : Type) (e : Event X) (w : World) : X * World :=
  match e in Event T return T * World with
  | Print _ => (tt, w)
  | Request m u _ _ _ =>
      if String.eqb m "GET" then (Ok (response (get_status w)), w)
      else if String.eqb u "https://api.github.com/user/repos"
           then (Ok (response (create_status w)),
                 if create_status w =? 201 then created w else w)
           else (Ok (response (pages_status w)), w)
  | PathHome => ("/home/alice", w)
  | PathExists _ => (false, w)
  | IsDir _ => (false, w)
  | IsFile _ => (index_is_file w, w)
  | Push _ _ _ =>
      match failing_pushes w with
      | O => (Ok tt, w)
      | S n =>
          (Raise (GitCommandError "error: src refspec main does not match any"), pushed n w)
      end
  | Sleep _ => (tt, w)
  | BrowserOpen _ => (true, w)
  | _ => (Ok tt, w)
  end.

(** The repository exists and everything succeeds. *)
Definition existing : World :=
  {| get_status := 200; create_status := 201; pages_status := 201;
     failing_pushes := 0; index_is_file := true |}.

(** The pages site is configured already. *)
Definition pages_configured : World :=
  {| get_status := 200; create_status := 201; pages_status := 422;
     failing_pushes := 0; index_is_file := true |}.

(** The pages call is refused. *)
Definition pages_refused : World :=
  {| get_status := 200; create_status := 201; pages_status := 500;
     failing_pushes := 0; index_is_file := true |}.

(** The existence query is refused for want of permission, and so is the
    creation. *)
Definition forbidden : World :=
  {| get_status := 403; create_status := 403; pages_status := 201;
     failing_pushes := 0; index_is_file := true |}.

(** There is no such repository yet, and it can be created. *)
Definition fresh : World :=
  {| get_status := 404; create_status := 201; pages_status := 201;
     failing_pushes := 0; index_is_file := true |}.

(** The local branch is not called main: the first push fails. *)
Definition master_branch : World :=
  {| get_status := 200; create_status := 201; pages_status := 201;
     failing_pushes := 1; index_is_file := true |}.

(** There is no index.html at the source. *)
Definition empty_source : World :=
  {| get_status := 200; create_status := 201; pages_status := 201;
     failing_pushes := 0; index_is_file := false |}.


Definition bare_environ : Environ :=
  {| GITHUB_TOKEN := None; script_parent := "/home/alice/site" |}.


End Demo.


(** ** More of the script, and more to observe *)

(** [_handle_remove_readonly(func, path, exc_info)], the [onerror] hook
    that [deploy] hands to [shutil.rmtree].  [os.chmod] and the callable
    [func] are whatever the caller's platform and [rmtree] make them, and
    [os_error] tells which exceptions are instances of [OSError]. *)
Definition _handle_remove_readonly
    (chmod : string -> Z -> Prog unit) (os_error : exn -> bool)
    (func : string -> Prog unit) (path : string) (exc_info : exn) : Prog unit :=
  try_except (chmod path 448) os_error (ret tt) ;;
  func path.

(** Every entry of every run of [p] satisfies [P]. *)
Fixpoint emits_only {A : Type} (P : Entry -> Prop) (p : Prog A) : Prop :=
  match p with
  | Ret _ => True
  | Vis e k => forall x, P (Called e x) /\ emits_only P (k x)
  end.

(** All there is to an HTTP request. *)
Definition request_sent (en : Entry)
  : option (string * string * list (string * string) * option Json * Z) :=
  match en with
  | Called e _ =>
      match e with
      | Request m u headers body timeout => Some (m, u, headers, body, timeout)
      | _ => None
      end
  end.

(** A request as [github_api] makes them with this token: to the API
    host, with the three headers, and with a timeout of 15. *)
Definition api_call (token : string) (en : Entry) : Prop :=
  match request_sent en with
  | Some (_, u, headers, _, timeout) =>
      String.prefix "https://api.github.com/" u = true /\
      headers = [("Authorization", "Bearer " ++ token);
                 ("Accept", "application/vnd.github+json");
                 ("X-GitHub-Api-Version", "2022-11-28")] /\
      timeout = 15
  | None => True
  end.

(** A creation request, if the entry is one, asks for a public, empty
    repository of this name. *)
Definition public_creation (username repo : string) (en : Entry) : Prop :=
  match request_sent en with
  | Some (m, u, _, body, _) =>
      m = "POST" -> u = "https://api.github.com/user/repos" ->
      exists d,
        body = Some (JDict d) /\
        dict_get "name" d = Some (JStr repo) /\
        dict_get "homepage" d = Some (JStr ("https://" ++ username ++ ".github.io")) /\
        dict_get "private" d = Some (JBool false) /\
        dict_get "auto_init" d = Some (JBool false)
  | None => True
  end.

(** The entry neither sleeps nor opens a browser. *)
Definition no_browser_call (en : Entry) : Prop :=
  match en with
  | Called e _ =>
      match e with
      | Sleep _ => False
      | BrowserOpen _ => False
      | _ => True
      end
  end.

(** Calls that touch the local machine: everything but printing and
    HTTP requests. *)
Definition is_local (en : Entry) : bool :=
  match en with
  | Called e _ =>
      match e with
      | Print _ => false
      | Request _ _ _ _ _ => false
      | _ => true
      end
  end.

Definition locals (tr : list Entry) : list Entry := filter is_local tr.

(** The calls of a run on the file system. *)
Inductive FsCall : Type :=
| FsHome (answer : string)
| FsExists (p : string) (answer : bool)
| FsRemove (p : string)
| FsMake (p : string)
| FsInit (p : string)
| FsCopy (dst : string).

Definition fs_call (en : Entry) : option FsCall :=
  match en with
  | Called e a =>
      match e in Event T return T -> option FsCall with
      | PathHome => fun home => Some (FsHome home)
      | PathExists p => fun b => Some (FsExists p b)
      | RmTree p => fun _ => Some (FsRemove p)
      | MkDir p _ => fun _ => Some (FsMake p)
      | RepoInit p => fun _ => Some (FsInit p)
      | CopyTree _ dst _ => fun _ => Some (FsCopy dst)
      | Copy2 _ dst => fun _ => Some (FsCopy dst)
      | _ => fun _ => None
      end a
  end.

Definition fs_calls (tr : list Entry) : list FsCall := collect fs_call tr.

(** A call that stays inside the workspace [ws]. *)
Definition within (ws : string) (c : FsCall) : Prop :=
  match c with
  | FsHome _ => False
  | FsExists p _ => p = ws
  | FsRemove p => p = ws
  | FsMake p => p = ws
  | FsInit p => p = ws
  | FsCopy dst => dst = path_join ws "index.html"
  end.

(** The file-system calls of a run of [deploy] for [repo]: the home
    directory is asked for first, every later call is on
    [~/{repo}_deploy] or on the [index.html] in it, and nothing is
    removed that was not found to exist. *)
Definition confined (repo : string) (calls : list FsCall) : Prop :=
  match calls with
  | [] => True
  | FsHome home :: rest =>
      Forall (within (path_join home (repo ++ "_deploy"))) rest /\
      forall p, In (FsRemove p) rest -> In (FsExists p true) rest
  | _ :: _ => False
  end.

(** The commits of a run, with their answers. *)
Definition commit_answer (en : Entry) : option (outcome unit) :=
  match en with
  | Called e a =>
      match e in Event T return T -> option (outcome unit) with
      | IndexCommit _ => fun r => Some r
      | _ => fun _ => None
      end a
  end.

Definition commits (tr : list Entry) : list (outcome unit) := collect commit_answer tr.

(** A run of [deploy] that sends the pages request has a push that went
    through before it, and no push after it. *)
Definition pages_after_push_rule (username repo : string) (o : outcome unit)
    (tr : list Entry) : Prop :=
  forall answer,
    In ("POST", "https://api.github.com/repos/" ++ username ++ "/" ++ repo ++ "/pages", answer)
       (requests tr) ->
    exists earlier, pushes tr = (earlier ++ [("origin", "main:main", true, Ok tt)])%list.

(** A run of [deploy] that returns has committed and pushed, and it has
    sent the pages request; a run never pushes more than twice. *)
Definition completed_rule (username repo : string) (o : outcome unit)
    (tr : list Entry) : Prop :=
  (length (pushes tr) <= 2)%nat /\
  (o = Ok tt ->
   (exists earlier, pushes tr = (earlier ++ [("origin", "main:main", true, Ok tt)])%list) /\
   exists answer,
     In ("POST", "https://api.github.com/repos/" ++ username ++ "/" ++ repo ++ "/pages",
         Ok answer)
        (requests tr)).

(** A stretch without a push and without a pages request. *)
Definition before_push (username repo : string) (tr : list Entry) : Prop :=
  no_push tr /\ no_pages_request username repo tr.

(** A run of [deploy] whose creation request is refused ends by
    [sys.exit] and has touched nothing on the local machine. *)
Definition refused_rule (o : outcome unit) (tr : list Entry) : Prop :=
  forall resp,
    In (Ok resp) (creations tr) ->
    status_code resp <> 200 -> status_code resp <> 201 ->
    locals tr = [] /\ exists msg, o = Raise (SystemExit msg).

(** An entry that is no creation request. *)
Definition not_a_creation (en : Entry) : Prop :=
  request_answer "POST" "https://api.github.com/user/repos" en = None.

(** An entry that is no call on the file system. *)
Definition not_a_fs_call (en : Entry) : Prop := fs_call en = None.

(** ** More scripted inputs *)

Module Offline.

(** No network: every request raises; the rest is as in [Demo]. *)
Definition handle (X : Type) (e : Event X) (w : Demo.World) : X * Demo.World :=
  match e in Event T return T * Demo.World with
  | Request _ _ _ _ _ => (Raise (OtherError "ConnectionError" "no route to host"), w)
  | other => Demo.handle _ other w
  end.

(** [deploy.py --username alice --token t0ken --no-browser]. *)
Definition quiet_argv : Argv :=
  {| opt_username := "alice"; opt_repo := None; opt_token := Some "t0ken";
     opt_source := None; opt_no_browser := true |}.

(** [deploy.py --username alice --token ""], with [GITHUB_TOKEN] set. *)
Definition empty_flag_argv : Argv :=
  {| opt_username := "alice"; opt_repo := None; opt_token := Some "";
     opt_source := None; opt_no_browser := false |}.

Definition token_environ : Environ :=
  {| GITHUB_TOKEN := Some "t0ken"; script_parent := "/home/alice/site" |}.

(** An [os.chmod] that is refused, the exceptions that are [OSError]s
    here, and the [os.unlink] that [rmtree] retries. *)
Definition chmod_refused (path : string) (mode : Z) : Prog unit :=
  raise (OtherError "PermissionError" path).

Definition os_error (e : exn) : bool :=
  match e with
  | OtherError name _ => String.eqb name "PermissionError" || String.eqb name "OSError"
  | _ => false
  end.

Definition unlink (path : string) : Prog unit := attempt (RmTree path).

End Offline.
(** * Proofs *)

(** ** Strings *)

Lemma append_assoc (a b c : string) : (a ++ b) ++ c = a ++ (b ++ c).
Proof. induction a as [| x a IH]; simpl; [reflexivity | now rewrite IH]. Qed.

Lemma append_empty_r (a : string) : a ++ "" = a.
Proof. induction a as [| x a IH]; simpl; [reflexivity | now rewrite IH]. Qed.


Lemma prefix_append (a rest : string) : String.prefix a (a ++ rest) = true.
Proof.
  induction a as [| x a IH]; simpl.
  - destruct rest; reflexivity.
  - destruct (Ascii.ascii_dec x x) as [_ | N]; [exact IH | now elim N].
Qed.


Lemma Infix_middle (a b c : string) : Infix b (a ++ b ++ c).
Proof. exists a, c. reflexivity. Qed.

Lemma Infix_end (a b : string) : Infix b (a ++ b).
Proof. exists a, "". now rewrite append_empty_r. Qed.



Lemma replace_absent (old new : string) :
  forall s, occurs old s = false -> replace old new s = s.
Proof.
  unfold replace. induction s as [| c s IH]; cbn [occurs replace_from]; intros H.
  - reflexivity.
  - apply orb_false_iff in H. destruct H as [Hp Ho]. rewrite Hp, (IH Ho). reflexivity.
Qed.

(** ** Traces and runs *)

Lemma collect_app {Y : Type} (f : Entry -> option Y) (t1 t2 : list Entry) :
  collect f (t1 ++ t2)%list = (collect f t1 ++ collect f t2)%list.
Proof.
  induction t1 as [| en t1 IH]; simpl; [reflexivity |].
  destruct (f en); simpl; now rewrite IH.
Qed.

Lemma third_of_equal {A B C : Type} (a a' : A) (b b' : B) (c c' : C) :
  (a, b, c) = (a', b', c') -> c = c'.
Proof. now intros [= _ _ ->]. Qed.

Section Runs.
Variable World : Type.
Variable handle : forall X : Type, Event X -> World -> X * World.

Lemma wp_sound {A : Type} (p : Prog A) :
  forall Q w, wp p Q -> Q (result World handle p w) (trace World handle p w).
Proof.
  unfold result, trace.
  induction p as [o | X e k IH]; intros Q w Hwp; simpl in *.
  - exact Hwp.
  - destruct (handle X e w) as [x w1].
    specialize (IH x _ w1 (Hwp x)).
    destruct (run World handle (k x) w1) as [[o w2] tr]. exact IH.
Qed.

Lemma run_bind {A B : Type} (p : Prog A) (f : A -> Prog B) :
  forall w,
    run World handle (bind p f) w =
    match run World handle p w with
    | (Ok a, w1, t1) =>
        let '(o, w2, t2) := run World handle (f a) w1 in (o, w2, (t1 ++ t2)%list)
    | (Raise e, w1, t1) => (Raise e, w1, t1)
    end.
Proof.
  induction p as [[a | e] | X e k IH]; intros w; simpl.
  - destruct (run World handle (f a) w) as [[o w2] t2]. reflexivity.
  - reflexivity.
  - destruct (handle X e w) as [x w1]. rewrite IH.
    destruct (run World handle (k x) w1) as [[[a | e'] w2] t1].
    + destruct (run World handle (f a) w2) as [[o w3] t2]. reflexivity.
    + reflexivity.
Qed.

End Runs.

Lemma wp_mono {A : Type} (p : Prog A) :
  forall Q Q' : outcome A -> list Entry -> Prop,
    (forall o tr, Q o tr -> Q' o tr) -> wp p Q -> wp p Q'.
Proof.
  induction p as [o | X e k IH]; intros Q Q' HQ Hwp; simpl in *.
  - apply HQ, Hwp.
  - intros x. eapply IH; [| apply Hwp]. intros o tr. apply HQ.
Qed.

Lemma wp_bind {A B : Type} (p : Prog A) (f : A -> Prog B) :
  forall Q : outcome B -> list Entry -> Prop,
    wp p (fun o tr =>
            match o with
            | Ok a => wp (f a) (fun o' tr' => Q o' (tr ++ tr')%list)
            | Raise e => Q (Raise e) tr
            end) ->
    wp (bind p f) Q.
Proof.
  induction p as [[a | e] | X e k IH]; intros Q Hwp; simpl in *.
  - exact Hwp.
  - exact Hwp.
  - intros x. apply IH. exact (Hwp x).
Qed.

(** Walking through a program: take the next answer, or split on what
    the program is waiting for. *)
Ltac stuck_on p :=
  lazymatch p with
  | bind ?q _ => stuck_on q
  | try_except ?q _ _ => stuck_on q
  | (if is_GitCommandError ?e then _ else _) => constr:(e)
  | (if ?b then _ else _) => constr:(b)
  | (match ?x with _ => _ end) => constr:(x)
  end.

Ltac wp_intro :=
  lazymatch goal with
  | |- forall _ : unit, _ => intros []
  | |- forall _ : bool, _ => intros []
  | |- forall _ : outcome unit, _ => intros [[] | ?]
  | |- forall _ : outcome _, _ => intros [? | ?]
  | |- forall _ : string, _ => intro
  end.

Ltac wp_case :=
  lazymatch goal with
  | |- wp ?p _ => let x := stuck_on p in destruct x eqn:?
  end.

Ltac wp_cbn :=
  cbn [wp bind try_except is_GitCommandError value_replace copy_items copy_item
          PORTFOLIO_FILES call attempt print ret lift raise sys_exit].

Ltac wp_walk := repeat (wp_cbn; first [wp_intro | wp_case]); wp_cbn.

Ltac in_trace := repeat first [left; reflexivity | right].

Ltac split_in H :=
  cbn [In] in H;
  repeat match type of H with
         | _ \/ _ => destruct H as [H | H]
         | False => destruct H
         end.

(** ** The copy loop *)

Lemma copy_items_wp (source_dir local_dir : string) (items : list string) :
  wp (copy_items source_dir local_dir items) (Staging source_dir local_dir items).
Proof.
  induction items as [| item rest IH]; cbn [copy_items].
  - constructor.
  - apply wp_bind. unfold copy_item. wp_walk.
    + eapply wp_mono; [| exact IH]. intros o tr H. now apply staging_dir.
    + apply staging_dir_raises.
    + eapply wp_mono; [| exact IH]. intros o tr H. now apply staging_file.
    + apply staging_file_raises.
    + eapply wp_mono; [| exact IH]. intros o tr H. now apply staging_missing.
Qed.

Lemma staging_counts (source_dir local_dir : string) (items : list string)
    (o : outcome unit) (tr : list Entry) :
  Staging source_dir local_dir items o tr ->
  o = Ok tt ->
  (length (copies tr) + length (warnings tr) = length items)%nat.
Proof.
  induction 1 as [| item rest o tr _ IH | item rest o tr _ IH | item rest o tr _ IH | |];
    intros Ho; try discriminate Ho.
  - reflexivity.
  - specialize (IH Ho). unfold copies, warnings in *. cbn in *. lia.
  - specialize (IH Ho). unfold copies, warnings in *. cbn in *. lia.
  - specialize (IH Ho). unfold copies, warnings in *.
    cbn [collect copy_done warning_line].
    rewrite (prefix_append "  ⚠ Skipping missing file: " item). cbn [length]. lia.
Qed.

(** ** Every run of [deploy] *)

Lemma wp_head {A : Type} (p : Prog A) (f : A -> Prog unit)
    (R : outcome unit -> list Entry -> Prop) (quiet : list Entry -> Prop) :
  Stable R quiet -> wp p (fun _ tr => quiet tr) -> (forall a, wp (f a) R) -> wp (bind p f) R.
Proof.
  intros [Hpre Hraise] Hp Hf. apply wp_bind.
  eapply wp_mono; [| exact Hp]. intros [a | e] tr Hq.
  - eapply wp_mono; [| exact (Hf a)]. intros o' tr' HR. now apply Hpre.
  - now apply Hraise.
Qed.

Lemma after_first_push_app (t tr : list Entry) :
  pushes t = [] -> after_first_push (t ++ tr) = after_first_push tr.
Proof.
  unfold pushes. induction t as [| en t IH]; cbn [collect after_first_push app]; intros H.
  - reflexivity.
  - destruct (push_call en); [discriminate H | exact (IH H)].
Qed.

Lemma retry_stable : Stable retry_rule no_push.
Proof.
  split.
  - intros o t tr Hq [Hall HR]. unfold no_push in Hq.
    assert (E : pushes (t ++ tr) = pushes tr).
    { unfold pushes in *. now rewrite collect_app, Hq. }
    unfold retry_rule. rewrite (after_first_push_app t tr Hq), E.
    split; [exact Hall | exact HR].
  - intros e t Hq. unfold no_push in Hq. unfold retry_rule. rewrite Hq.
    split; [constructor |].
    intros stderr rest Hp. discriminate Hp.
Qed.

Lemma pages_stable (username repo : string) :
  Stable (pages_rule username repo) (no_pages_request username repo).
Proof.
  split.
  - intros o t tr Hq HR resp Hin Hst. unfold requests in Hin.
    rewrite collect_app in Hin. apply in_app_or in Hin. destruct Hin as [Hin | Hin].
    + elim (Hq _ Hin).
    + destruct (HR resp Hin Hst) as [Ho Hp]. split; [exact Ho |].
      apply in_or_app. now right.
  - intros e t Hq resp Hin _. elim (Hq _ Hin).
Qed.

Lemma missing_stable (source_dir : string) : Stable (missing_rule source_dir) no_file_check.
Proof.
  split.
  - intros o t tr [Hf Hw] HR Hin. unfold file_checks, warnings in *.
    rewrite collect_app, Hf in Hin. destruct (HR Hin) as [Hone [added Hadd]].
    rewrite collect_app, Hw. split; [exact Hone |].
    exists added. apply in_or_app. now right.
  - intros e t [Hf _] Hin. rewrite Hf in Hin. destruct Hin.
Qed.

(** A stretch that is quiet in all three ways. *)
Ltac quiet_leaf :=
  lazymatch goal with
  | |- no_push _ => reflexivity
  | |- no_file_check _ => split; reflexivity
  | |- no_pages_request _ _ _ =>
      let H := fresh "H" in
      unfold no_pages_request; cbn [requests collect request_info api_request];
      intros ? H; split_in H; first [discriminate H | simpl in H; discriminate H]
  end.

Lemma print_quiet (username repo line : string) :
  String.prefix "  ⚠ Skipping missing file: " line = false ->
  wp (print line)
     (fun _ tr => no_push tr /\ no_pages_request username repo tr /\ no_file_check tr).
Proof.
  intros H. cbn. intros []. repeat split.
  - intros answer [].
  - unfold warnings. cbn. now rewrite H.
Qed.

Lemma ensure_quiet (username repo token : string) (private : bool) :
  wp (ensure_repo_exists username repo token private)
     (fun _ tr => no_push tr /\ no_pages_request username repo tr /\ no_file_check tr).
Proof.
  unfold ensure_repo_exists, github_api. wp_walk.
  all: split; [| split]; quiet_leaf.
Qed.

Lemma prepare_quiet (username repo : string) :
  wp (prepare_local username repo)
     (fun _ tr => no_push tr /\ no_pages_request username repo tr /\ no_file_check tr).
Proof.
  unfold prepare_local. wp_walk.
  all: split; [| split]; quiet_leaf.
Qed.

Lemma copy_quiet (username repo source_dir local_dir : string) :
  wp (copy_portfolio source_dir local_dir)
     (fun _ tr => no_push tr /\ no_pages_request username repo tr).
Proof.
  unfold copy_portfolio. wp_walk.
  all: split; quiet_leaf.
Qed.

Lemma commit_quiet (username repo token : string) (remote_url : Json) :
  wp (commit_and_push remote_url token) (fun _ tr => no_pages_request username repo tr).
Proof.
  unfold commit_and_push, attach_remote, push_main. wp_walk.
  all: quiet_leaf.
Qed.

(** The part of [deploy] that each rule is about. *)
Lemma retry_tail (username repo token : string) (remote_url : Json) (open_browser : bool) :
  wp (commit_and_push remote_url token ;;
      print (nl ++ "[5/5] Enabling GitHub Pages...") ;;
      pages_url <- enable_github_pages username repo token ;;
      report pages_url open_browser)
     retry_rule.
Proof.
  unfold commit_and_push, attach_remote, push_main, enable_github_pages, report, github_api.
  wp_walk.
  all: unfold retry_rule;
       cbn [pushes collect push_call after_first_push api_request];
       (split; [repeat constructor |]);
       intros ? ? Hp;
       first
         [ discriminate Hp
         | injection Hp as <- <-;
           eexists; cbn [hd_error tl]; (split; [reflexivity |]); split;
           [ intros ? He; split; congruence
           | intros Hr;
             first
               [ discriminate Hr
               | eexists; (split; [reflexivity |]); (split; [reflexivity |]);
                 intros ? He;
                 first [ discriminate He | split; [congruence | cbn; discriminate] ] ] ] ].
Qed.

Lemma pages_tail (username repo token : string) (open_browser : bool) :
  wp (print (nl ++ "[5/5] Enabling GitHub Pages...") ;;
      pages_url <- enable_github_pages username repo token ;;
      report pages_url open_browser)
     (pages_rule username repo).
Proof.
  unfold enable_github_pages, report, github_api. wp_walk.
  all: unfold pages_rule; cbn [requests collect request_info api_request];
       intros resp Hin Hst; split_in Hin;
       apply third_of_equal in Hin;
       first
         [ discriminate Hin
         | injection Hin as ->;
           lazymatch goal with
           | E : (_ || _) = false |- _ =>
               exfalso; destruct Hst as [Hst | Hst]; rewrite Hst in E; discriminate E
           | |- _ => split; [reflexivity | in_trace]
           end ].
Qed.

Lemma missing_tail (username repo token source_dir local_dir : string)
    (remote_url : Json) (open_browser : bool) :
  wp (copy_portfolio source_dir local_dir ;;
      commit_and_push remote_url token ;;
      print (nl ++ "[5/5] Enabling GitHub Pages...") ;;
      pages_url <- enable_github_pages username repo token ;;
      report pages_url open_browser)
     (missing_rule source_dir).
Proof.
  unfold copy_portfolio, commit_and_push, attach_remote, push_main, enable_github_pages,
    report, github_api.
  wp_walk.
  all: unfold missing_rule; cbn [file_checks collect file_check api_request];
       intros Hin; split_in Hin;
       first [ discriminate Hin | split; [reflexivity | eexists; in_trace] ].
Qed.

Ltac quiet_by lemma :=
  eapply wp_mono; [| apply lemma; try reflexivity]; cbn beta; intros; tauto.

Ltac skip_stage stable lemma :=
  apply (wp_head _ _ _ _ stable); [quiet_by lemma | intros ?].

Lemma deploy_retry (username repo token source_dir : string) (open_browser : bool) :
  wp (deploy username repo token source_dir open_browser) retry_rule.
Proof.
  unfold deploy.
  do 4 skip_stage retry_stable (print_quiet username repo).
  skip_stage retry_stable (ensure_quiet username repo token false).
  skip_stage retry_stable (prepare_quiet username repo).
  skip_stage retry_stable (copy_quiet username repo source_dir).
  apply retry_tail.
Qed.

Lemma deploy_pages (username repo token source_dir : string) (open_browser : bool) :
  wp (deploy username repo token source_dir open_browser) (pages_rule username repo).
Proof.
  unfold deploy.
  do 4 skip_stage (pages_stable username repo) (print_quiet username repo).
  skip_stage (pages_stable username repo) (ensure_quiet username repo token false).
  skip_stage (pages_stable username repo) (prepare_quiet username repo).
  skip_stage (pages_stable username repo) (copy_quiet username repo source_dir).
  skip_stage (pages_stable username repo) (commit_quiet username repo token).
  apply pages_tail.
Qed.

Lemma deploy_missing (username repo token source_dir : string) (open_browser : bool) :
  wp (deploy username repo token source_dir open_browser) (missing_rule source_dir).
Proof.
  unfold deploy.
  do 4 skip_stage (missing_stable source_dir) (print_quiet username repo).
  skip_stage (missing_stable source_dir) (ensure_quiet username repo token false).
  skip_stage (missing_stable source_dir) (prepare_quiet username repo).
  apply missing_tail.
Qed.


Lemma report_returns (url : string) (open_browser : bool) :
  wp (report url open_browser) (fun o _ => o = Ok tt).
Proof. destruct open_browser; cbn; intros; reflexivity. Qed.

(** ** The pages enabler *)

Section Enabler.
Variable World : Type.
Variable handle : forall X : Type, Event X -> World -> X * World.
Variables username repo token : string.

Lemma enable_run_success (w w1 : World) (resp : Response) :
  handle _ (pages_request username repo token) w = (Ok resp, w1) ->
  status_code resp = 201 \/ status_code resp = 422 ->
  let url := if String.eqb repo (username ++ ".github.io")
             then "https://" ++ username ++ ".github.io/"
             else "https://" ++ username ++ ".github.io/" ++ repo in
  result World handle (enable_github_pages username repo token) w = Ok url /\
  In (Called (Print ("  ✓ GitHub Pages enabled → " ++ url)) tt)
     (trace World handle (enable_github_pages username repo token) w).
Proof.
  intros H Hst url. unfold pages_request in H.
  unfold result, trace, enable_github_pages, github_api, attempt.
  cbn [bind run]. rewrite H. cbn [bind run].
  assert (E : (status_code resp =? 201) || (status_code resp =? 422) = true).
  { destruct Hst as [-> | ->]; reflexivity. }
  rewrite E. fold url. unfold print, call, ret. cbn [bind run].
  destruct (handle unit (Print ("  ✓ GitHub Pages enabled → " ++ url)) w1) as [[] w2].
  cbn. split; [reflexivity | right; left; reflexivity].
Qed.

Lemma enable_run_failure (w w1 : World) (resp : Response) :
  handle _ (pages_request username repo token) w = (Ok resp, w1) ->
  status_code resp <> 201 -> status_code resp <> 422 ->
  result World handle (enable_github_pages username repo token) w
  = Ok ("https://" ++ username ++ ".github.io/" ++ repo).
Proof.
  intros H H1 H2. unfold pages_request in H.
  unfold result, enable_github_pages, github_api, attempt.
  cbn [bind run]. rewrite H. cbn [bind run].
  apply Z.eqb_neq in H1, H2. rewrite H1, H2. unfold print, call, ret. cbn [orb bind run].
  repeat match goal with
         | |- context [handle unit ?e ?v] => destruct (handle unit e v) as [[] ?]; cbn [bind run]
         end.
  reflexivity.
Qed.

(** C1. When the pages call succeeds (status 201 or 422), the URL
    returned for a repository named [{account}.github.io] is the bare
    pages host [https://{account}.github.io/], without a repository
    segment; for any other name it is [https://{account}.github.io/{repo}]. *)
Theorem pages_url_convention_on_success (w w1 : World) (resp : Response) :
  handle _ (pages_request username repo token) w = (Ok resp, w1) ->
  status_code resp = 201 \/ status_code resp = 422 ->
  (repo = username ++ ".github.io" ->
   result World handle (enable_github_pages username repo token) w
   = Ok ("https://" ++ username ++ ".github.io/")) /\
  (repo <> username ++ ".github.io" ->
   result World handle (enable_github_pages username repo token) w
   = Ok ("https://" ++ username ++ ".github.io/" ++ repo)).
Proof.
  intros H Hst. destruct (enable_run_success w w1 resp H Hst) as [E _].
  split; intros Hrepo; rewrite E.
  - apply String.eqb_eq in Hrepo. now rewrite Hrepo.
  - apply String.eqb_neq in Hrepo. now rewrite Hrepo.
Qed.

(** C2. What the code does when the pages call is answered with any
    status other than 201 and 422: it returns
    [https://{account}.github.io/{repo}] whatever the repository name.
    The special case of a repository named [{account}.github.io], which
    the success path applies, is not applied on this path. *)
Theorem pages_url_on_failure_keeps_repo_segment (w w1 : World) (resp : Response) :
  handle _ (pages_request username repo token) w = (Ok resp, w1) ->
  status_code resp <> 201 -> status_code resp <> 422 ->
  result World handle (enable_github_pages username repo token) w
  = Ok ("https://" ++ username ++ ".github.io/" ++ repo).
Proof. exact (enable_run_failure w w1 resp). Qed.

(** C5. A pages response with status 201 (created) and one with status
    422 (already configured) are both successes: in both cases the
    enabler returns normally, prints the success line and returns the
    same URL; and in every run of [deploy] in which the pages call gets
    one of these two answers, the run ends without an exception (exit
    status 0) and that URL is the one reported. *)
Theorem created_and_already_configured_alike
    (w w1 w' w1' : World) (r r' : Response) :
  handle _ (pages_request username repo token) w = (Ok r, w1) -> status_code r = 201 ->
  handle _ (pages_request username repo token) w' = (Ok r', w1') -> status_code r' = 422 ->
  exists url,
    result World handle (enable_github_pages username repo token) w = Ok url /\
    result World handle (enable_github_pages username repo token) w' = Ok url /\
    In (Called (Print ("  ✓ GitHub Pages enabled → " ++ url)) tt)
       (trace World handle (enable_github_pages username repo token) w) /\
    In (Called (Print ("  ✓ GitHub Pages enabled → " ++ url)) tt)
       (trace World handle (enable_github_pages username repo token) w') /\
    forall (source_dir : string) (open_browser : bool) (w0 : World) (resp : Response),
      In ("POST", "https://api.github.com/repos/" ++ username ++ "/" ++ repo ++ "/pages",
          Ok resp)
         (requests (trace World handle
                      (deploy username repo token source_dir open_browser) w0)) ->
      status_code resp = 201 \/ status_code resp = 422 ->
      result World handle (deploy username repo token source_dir open_browser) w0 = Ok tt /\
      exit_status (result World handle
                     (deploy username repo token source_dir open_browser) w0) = 0 /\
      In (Called (Print ("     " ++ url)) tt)
         (trace World handle (deploy username repo token source_dir open_browser) w0).
Proof.
  intros H Hr H' Hr'.
  destruct (enable_run_success w w1 r H (or_introl Hr)) as [E T].
  destruct (enable_run_success w' w1' r' H' (or_intror Hr')) as [E' T'].
  eexists. do 4 (split; [eassumption |]).
  intros source_dir open_browser w0 resp Hin Hst.
  destruct (wp_sound World handle _ _ w0
              (deploy_pages username repo token source_dir open_browser) resp Hin Hst)
    as [Ho Hp].
  rewrite Ho. repeat split. exact Hp.
Qed.

End Enabler.

Lemma pages_url_convention_on_success_witness :
  result Demo.World Demo.handle
    (enable_github_pages "alice" "alice.github.io" "t0ken") Demo.existing
  = Ok "https://alice.github.io/" /\
  result Demo.World Demo.handle
    (enable_github_pages "alice" "portfolio" "t0ken") Demo.existing
  = Ok "https://alice.github.io/portfolio".
Proof.
  split.
  - apply (pages_url_convention_on_success Demo.World Demo.handle
             "alice" "alice.github.io" "t0ken" Demo.existing Demo.existing
             (Demo.response 201)).
    + reflexivity.
    + left; reflexivity.
    + reflexivity.
  - apply (pages_url_convention_on_success Demo.World Demo.handle
             "alice" "portfolio" "t0ken" Demo.existing Demo.existing
             (Demo.response 201)).
    + reflexivity.
    + left; reflexivity.
    + discriminate.
Defined.

Lemma pages_url_on_failure_keeps_repo_segment_witness :
  result Demo.World Demo.handle
    (enable_github_pages "alice" "alice.github.io" "t0ken") Demo.pages_refused
  = Ok "https://alice.github.io/alice.github.io".
Proof.
  apply (pages_url_on_failure_keeps_repo_segment Demo.World Demo.handle
           "alice" "alice.github.io" "t0ken" Demo.pages_refused Demo.pages_refused
           (Demo.response 500)).
  - reflexivity.
  - discriminate.
  - discriminate.
Defined.

Lemma created_and_already_configured_alike_witness :
  exists url,
    result Demo.World Demo.handle
      (enable_github_pages "alice" "portfolio" "t0ken") Demo.existing = Ok url /\
    result Demo.World Demo.handle
      (enable_github_pages "alice" "portfolio" "t0ken") Demo.pages_configured = Ok url /\
    result Demo.World Demo.handle
      (deploy "alice" "portfolio" "t0ken" "/home/alice/site" true) Demo.pages_configured
    = Ok tt.
Proof.
  destruct (created_and_already_configured_alike Demo.World Demo.handle
              "alice" "portfolio" "t0ken"
              Demo.existing Demo.existing Demo.pages_configured Demo.pages_configured
              (Demo.response 201) (Demo.response 422)
              eq_refl eq_refl eq_refl eq_refl)
    as (url & E & E' & _ & _ & D).
  exists url. split; [exact E |]. split; [exact E' |].
  apply (D "/home/alice/site" true Demo.pages_configured (Demo.response 422)).
  - right. left. reflexivity.
  - right. reflexivity.
Defined.

(** ** The repository ensurer *)

Section Ensurer.
Variable World : Type.
Variable handle : forall X : Type, Event X -> World -> X * World.
Variables username repo token : string.
Variable private : bool.

Lemma ensure_found (w w1 : World) (resp : Response) :
  handle _ (existence_request username repo token) w = (Ok resp, w1) ->
  status_code resp = 200 ->
  result World handle (ensure_repo_exists username repo token private) w = clone_url resp /\
  trace World handle (ensure_repo_exists username repo token private) w
  = [Called (existence_request username repo token) (Ok resp);
     Called (Print ("  ✓ Repo '" ++ repo ++ "' already exists on GitHub.")) tt].
Proof.
  intros H Hst. unfold existence_request in *.
  unfold result, trace, ensure_repo_exists, github_api, attempt.
  cbn [bind run]. rewrite H. cbn [bind run].
  rewrite Hst. cbn [Z.eqb Pos.eqb]. unfold print, call, lift. cbn [bind run].
  destruct (handle unit _ w1) as [[] w2]. cbn. split; reflexivity.
Qed.

(** C3. If the existence query is answered with status 200, the ensurer
    returns [resp.json()["clone_url"]] of that answer as it is and sends
    no creation request.  Hence a second call in a row, made when the
    repository is there, adds no creation request to those of the
    first. *)
Theorem found_repo_returned_without_creation :
  (forall (w w1 : World) (resp : Response),
      handle _ (existence_request username repo token) w = (Ok resp, w1) ->
      status_code resp = 200 ->
      result World handle (ensure_repo_exists username repo token private) w = clone_url resp /\
      creations (trace World handle (ensure_repo_exists username repo token private) w) = []) /\
  (forall (w w2 : World) (resp : Response),
      let w1 := snd (fst (run World handle (ensure_repo_exists username repo token private) w)) in
      handle _ (existence_request username repo token) w1 = (Ok resp, w2) ->
      status_code resp = 200 ->
      creations (trace World handle
                   (ensure_repo_exists username repo token private ;;
                    ensure_repo_exists username repo token private) w)
      = creations (trace World handle (ensure_repo_exists username repo token private) w)).
Proof.
  assert (first : forall (w w1 : World) (resp : Response),
             handle _ (existence_request username repo token) w = (Ok resp, w1) ->
             status_code resp = 200 ->
             result World handle (ensure_repo_exists username repo token private) w
             = clone_url resp /\
             creations (trace World handle (ensure_repo_exists username repo token private) w)
             = []).
  { intros w w1 resp H Hst. destruct (ensure_found w w1 resp H Hst) as [E T].
    split; [exact E | rewrite T; reflexivity]. }
  split; [exact first |].
  intros w w2 resp w1 H Hst.
  destruct (first w1 w2 resp H Hst) as [_ T].
  unfold trace in *. rewrite run_bind. subst w1.
  destruct (run World handle (ensure_repo_exists username repo token private) w)
    as [[[a | e] w1] t1]; cbn [fst snd] in *; [| reflexivity].
  destruct (run World handle (ensure_repo_exists username repo token private) w1)
    as [[o w3] t2]; cbn [fst snd] in *.
  unfold creations in *. rewrite collect_app, T. apply app_nil_r.
Qed.

(** C10. Any answer to the existence query whose status is not 200 (a
    401, 403 or 500 as much as a 404) is taken to mean that there is no
    such repository: the ensurer announces the creation and sends the
    creation request, and reports no error of its own for that status. *)
Theorem any_other_status_leads_to_creation (w w1 : World) (resp : Response) :
  handle _ (existence_request username repo token) w = (Ok resp, w1) ->
  status_code resp <> 200 ->
  exists answer rest,
    trace World handle (ensure_repo_exists username repo token private) w
    = Called (existence_request username repo token) (Ok resp)
      :: Called (Print ("  Creating repo '" ++ repo ++ "' on GitHub...")) tt
      :: Called (creation_request username repo token private) answer
      :: rest /\
    creations (trace World handle (ensure_repo_exists username repo token private) w)
    = [answer].
Proof.
  intros H Hst. unfold existence_request, creation_request in *.
  unfold trace, ensure_repo_exists, github_api, attempt.
  cbn [bind run]. rewrite H. cbn [bind run].
  apply Z.eqb_neq in Hst. rewrite Hst. unfold print, call, lift, sys_exit, raise. cbn [bind run].
  destruct (handle unit _ w1) as [[] w2]. cbn [bind run].
  destruct (handle _ (api_request "POST" "/user/repos" token
                        (Some (create_payload username repo private))) w2)
    as [[r | e] w3]; cbn [bind run].
  - destruct (negb ((status_code r =? 200) || (status_code r =? 201))); cbn [bind run].
    + eexists _, _. split; reflexivity.
    + destruct (handle unit _ w3) as [[] w4]. eexists _, _. split; reflexivity.
  - eexists _, _. split; reflexivity.
Qed.

Lemma ensure_wp :
  wp (ensure_repo_exists username repo token private)
     (fun o tr =>
        forall resp, In (Ok resp) (creations tr) ->
          if (status_code resp =? 200) || (status_code resp =? 201)
          then o = clone_url resp
          else o = Raise (SystemExit ("  ✗ Could not create repo: "
                                        ++ str_of_int (status_code resp) ++ " " ++ text resp))).
Proof.
  unfold ensure_repo_exists, github_api. wp_walk.
  all: cbn [creations collect request_answer request_info api_request];
       cbn; intros resp Hin; split_in Hin;
       first [discriminate Hin | injection Hin as <-].
  all: match goal with
       | E : negb ?b = _ |- _ => destruct b; try discriminate E
       end; reflexivity.
Qed.

(** C8. Whenever the creation request is answered, a status other than
    200 and 201 ends the process: [sys.exit] is raised with a message
    that holds the status code and the body, so the exit status is not
    zero.  With status 200 or 201 the ensurer returns
    [resp.json()["clone_url"]] of the answer. *)
Theorem creation_failure_is_fatal (w : World) (resp : Response) :
  In (Ok resp)
     (creations (trace World handle (ensure_repo_exists username repo token private) w)) ->
  (status_code resp <> 200 -> status_code resp <> 201 ->
   exists msg,
     result World handle (ensure_repo_exists username repo token private) w
     = Raise (SystemExit msg) /\
     exit_status (result World handle (ensure_repo_exists username repo token private) w) <> 0 /\
     Infix (str_of_int (status_code resp)) msg /\ Infix (text resp) msg) /\
  (status_code resp = 200 \/ status_code resp = 201 ->
   result World handle (ensure_repo_exists username repo token private) w = clone_url resp).
Proof.
  intros Hin.
  pose proof (wp_sound World handle _ _ w ensure_wp resp Hin) as H.
  split.
  - intros H1 H2. apply Z.eqb_neq in H1, H2. rewrite H1, H2 in H. cbn [orb] in H.
    eexists. rewrite H. split; [reflexivity |]. split; [discriminate |]. split.
    + apply Infix_middle.
    + rewrite <- append_assoc. rewrite <- append_assoc. apply Infix_end.
  - intros [E | E]; rewrite E in H; exact H.
Qed.

End Ensurer.

Lemma found_repo_returned_without_creation_witness :
  result Demo.World Demo.handle
    (ensure_repo_exists "alice" "portfolio" "t0ken" false) Demo.existing
  = Ok (JStr "https://github.com/alice/portfolio.git") /\
  creations (trace Demo.World Demo.handle
               (ensure_repo_exists "alice" "portfolio" "t0ken" false) Demo.existing) = [] /\
  creations (trace Demo.World Demo.handle
               (ensure_repo_exists "alice" "portfolio" "t0ken" false ;;
                ensure_repo_exists "alice" "portfolio" "t0ken" false) Demo.fresh)
  = [Ok (Demo.response 201)].
Proof.
  destruct (found_repo_returned_without_creation Demo.World Demo.handle
              "alice" "portfolio" "t0ken" false) as [H1 H2].
  destruct (H1 Demo.existing Demo.existing (Demo.response 200) eq_refl eq_refl) as [E T].
  split; [exact E |]. split; [exact T |].
  rewrite (H2 Demo.fresh (Demo.created Demo.fresh) (Demo.response 200) eq_refl eq_refl).
  reflexivity.
Defined.

Lemma any_other_status_leads_to_creation_witness :
  exists answer,
    creations (trace Demo.World Demo.handle
                 (ensure_repo_exists "alice" "portfolio" "t0ken" false) Demo.forbidden)
    = [answer].
Proof.
  destruct (any_other_status_leads_to_creation Demo.World Demo.handle
              "alice" "portfolio" "t0ken" false Demo.forbidden Demo.forbidden
              (Demo.response 403) eq_refl)
    as (answer & rest & T & C).
  - discriminate.
  - exists answer. exact C.
Defined.

Lemma creation_failure_is_fatal_witness :
  (exists msg,
      result Demo.World Demo.handle
        (ensure_repo_exists "alice" "portfolio" "t0ken" false) Demo.forbidden
      = Raise (SystemExit msg) /\
      Infix "403" msg /\ Infix "{...}" msg) /\
  result Demo.World Demo.handle
    (ensure_repo_exists "alice" "portfolio" "t0ken" false) Demo.fresh
  = Ok (JStr "https://github.com/alice/portfolio.git").
Proof.
  split.
  - destruct (creation_failure_is_fatal Demo.World Demo.handle
                "alice" "portfolio" "t0ken" false Demo.forbidden (Demo.response 403))
      as [H _].
    + left. reflexivity.
    + destruct H as (msg & E & _ & I1 & I2); [discriminate | discriminate |].
      exists msg. split; [exact E |]. split; [exact I1 | exact I2].
  - destruct (creation_failure_is_fatal Demo.World Demo.handle
                "alice" "portfolio" "t0ken" false Demo.fresh (Demo.response 201))
      as [_ H].
    + left. reflexivity.
    + apply H. right. reflexivity.
Defined.

(** ** The publisher *)


Section Publisher.
Variable World : Type.
Variable handle : forall X : Type, Event X -> World -> X * World.

(** C4. In every run of [deploy], every push is a force-push of
    [main:main] to [origin]; if the first one fails (raises
    [GitCommandError]), the next call is [git branch -M main], and, that
    done, the push is made once more and never again; if this second
    push raises, the run ends with that very exception, hence with a
    non-zero exit status. *)
Theorem failed_push_renames_and_retries_once
    (username repo token source_dir : string) (open_browser : bool) (w : World)
    (stderr : string) (rest : list (string * string * bool * outcome unit)) :
  let o := result World handle (deploy username repo token source_dir open_browser) w in
  let tr := trace World handle (deploy username repo token source_dir open_browser) w in
  pushes tr = ("origin", "main:main", true, Raise (GitCommandError stderr)) :: rest ->
  exists renamed,
    hd_error (after_first_push tr) = Some (Called (GitBranch ["-M"; "main"]) renamed) /\
    (forall e, renamed = Raise e -> rest = [] /\ o = Raise e) /\
    (renamed = Ok tt ->
     exists second,
       rest = [("origin", "main:main", true, second)] /\
       hd_error (tl (after_first_push tr))
       = Some (Called (Push "origin" "main:main" true) second) /\
       forall e, second = Raise e -> o = Raise e /\ exit_status o <> 0).
Proof.
  intros o tr.
  destruct (wp_sound World handle _ _ w
              (deploy_retry username repo token source_dir open_browser)) as [_ H].
  exact (H stderr rest).
Qed.


End Publisher.

Lemma failed_push_renames_and_retries_once_witness :
  pushes (trace Demo.World Demo.handle
            (deploy "alice" "portfolio" "t0ken" "/home/alice/site" false) Demo.master_branch)
  = [("origin", "main:main", true,
      Raise (GitCommandError "error: src refspec main does not match any"));
     ("origin", "main:main", true, Ok tt)] /\
  exists renamed,
    hd_error (after_first_push
                (trace Demo.World Demo.handle
                   (deploy "alice" "portfolio" "t0ken" "/home/alice/site" false)
                   Demo.master_branch))
    = Some (Called (GitBranch ["-M"; "main"]) renamed).
Proof.
  split; [reflexivity |].
  destruct (failed_push_renames_and_retries_once Demo.World Demo.handle
              "alice" "portfolio" "t0ken" "/home/alice/site" false Demo.master_branch
              "error: src refspec main does not match any"
              [("origin", "main:main", true, Ok tt)] eq_refl)
    as (renamed & H & _).
  exists renamed. exact H.
Defined.



(** ** The file stager *)

Section Stager.
Variable World : Type.
Variable handle : forall X : Type, Event X -> World -> X * World.

(** C6. Over any manifest, a run of the copy loop treats every entry in
    turn in one of three ways: a directory is copied with
    [copytree(src, dst, dirs_exist_ok=True)], a regular file with
    [copy2(src, dst)], and an entry that is neither gets exactly one
    warning line, after which the loop goes on; only a copy that raises
    ends the loop.  So a loop that returns has copied or warned of every
    entry, once each.  In a run of [deploy], an [index.html] that is not
    at the source gives exactly one warning and the run goes on to stage
    and commit. *)
Theorem staging_copies_or_warns (source_dir local_dir : string) (items : list string)
    (w : World) :
  let o := result World handle (copy_items source_dir local_dir items) w in
  let tr := trace World handle (copy_items source_dir local_dir items) w in
  Staging source_dir local_dir items o tr /\
  (o = Ok tt -> (length (copies tr) + length (warnings tr) = length items)%nat) /\
  forall (username repo token : string) (open_browser : bool) (w0 : World),
    let run_tr :=
      trace World handle (deploy username repo token source_dir open_browser) w0 in
    In (path_join source_dir "index.html", false) (file_checks run_tr) ->
    warnings run_tr = ["  ⚠ Skipping missing file: index.html"] /\
    exists added, In (Called (GitAdd true) added) run_tr.
Proof.
  intros o tr.
  pose proof (wp_sound World handle _ _ w (copy_items_wp source_dir local_dir items)) as H.
  split; [exact H |]. split.
  - exact (staging_counts _ _ _ _ _ H).
  - intros username repo token open_browser w0.
    exact (wp_sound World handle _ _ w0
             (deploy_missing username repo token source_dir open_browser)).
Qed.

End Stager.

(** ** The entry point *)

Section EntryPoint.
Variable World : Type.
Variable handle : forall X : Type, Event X -> World -> X * World.


End EntryPoint.

Lemma staging_copies_or_warns_witness :
  warnings (trace Demo.World Demo.handle
              (deploy "alice" "portfolio" "t0ken" "/home/alice/site" false) Demo.empty_source)
  = ["  ⚠ Skipping missing file: index.html"] /\
  (length (copies (trace Demo.World Demo.handle
                     (copy_items "/home/alice/site" "/home/alice/portfolio_deploy"
                        ["index.html"; "assets"]) Demo.existing))
   + length (warnings (trace Demo.World Demo.handle
                         (copy_items "/home/alice/site" "/home/alice/portfolio_deploy"
                            ["index.html"; "assets"]) Demo.existing))
   = 2)%nat.
Proof.
  split.
  - destruct (staging_copies_or_warns Demo.World Demo.handle
                "/home/alice/site" "/home/alice/portfolio_deploy" PORTFOLIO_FILES
                Demo.empty_source) as (_ & _ & H).
    destruct (H "alice" "portfolio" "t0ken" false Demo.empty_source) as [E _].
    + left. reflexivity.
    + exact E.
  - destruct (staging_copies_or_warns Demo.World Demo.handle
                "/home/alice/site" "/home/alice/portfolio_deploy" ["index.html"; "assets"]
                Demo.existing) as (_ & H & _).
    apply H. reflexivity.
Defined.


(** * More of the script *)

(** ** Properties of every entry of a run *)

Lemma emits_only_bind {A B : Type} (P : Entry -> Prop) (p : Prog A) (f : A -> Prog B) :
  emits_only P p -> (forall a, emits_only P (f a)) -> emits_only P (bind p f).
Proof.
  induction p as [[a | e] | X e k IH]; cbn [bind emits_only]; intros Hp Hf.
  - apply Hf.
  - exact I.
  - intros x. destruct (Hp x) as [Hx Hk]. split; [exact Hx | now apply IH].
Qed.

Lemma emits_only_try {A : Type} (P : Entry -> Prop) (p handler : Prog A) (catches : exn -> bool) :
  emits_only P p -> emits_only P handler -> emits_only P (try_except p catches handler).
Proof.
  induction p as [[a | e] | X e k IH]; cbn [try_except emits_only]; intros Hp Hh.
  - exact I.
  - destruct (catches e); [exact Hh | exact I].
  - intros x. destruct (Hp x) as [Hx Hk]. split; [exact Hx | now apply IH].
Qed.

Lemma emits_only_wp {A : Type} (P : Entry -> Prop) (p : Prog A) :
  emits_only P p -> wp p (fun _ tr => Forall P tr).
Proof.
  intros H.
  enough (G : forall Q : outcome A -> list Entry -> Prop,
             (forall o tr, Forall P tr -> Q o tr) -> wp p Q).
  { apply G. auto. }
  induction p as [o | X e k IH]; cbn [wp emits_only] in *; intros Q HQ.
  - apply HQ. constructor.
  - intros x. destruct (H x) as [Hx Hk]. apply (IH x Hk).
    intros o tr Htr. apply HQ. now constructor.
Qed.

Lemma silent_collect {Y : Type} (f : Entry -> option Y) (tr : list Entry) :
  Forall (fun en => f en = None) tr -> collect f tr = [].
Proof. induction 1 as [| en tr Hen _ IH]; cbn [collect]; [reflexivity | now rewrite Hen]. Qed.

(** Going through a program piece by piece; what is asked of each call
    is left to [check]. *)
Ltac emits_walk check :=
  repeat first
    [ exact I
    | apply emits_only_bind; [| intros ?]
    | apply emits_only_try
    | lazymatch goal with
      | |- emits_only _ (if ?b then _ else _) => destruct b
      | |- emits_only _ (match ?x with _ => _ end) => destruct x
      | |- emits_only _ (Vis _ _) => cbn [emits_only]; intros ?; split; [check |]
      | |- forall _, _ /\ _ => intros ?; split; [check |]
      end
    | progress cbn [emits_only call attempt print ret lift raise sys_exit
                      copy_items copy_item PORTFOLIO_FILES] ].

Ltac unfold_deploy :=
  unfold deploy, ensure_repo_exists, prepare_local, copy_portfolio, commit_and_push,
    attach_remote, push_main, enable_github_pages, report, github_api.

Lemma deploy_api_calls (username repo token source_dir : string) (open_browser : bool) :
  emits_only (api_call token) (deploy username repo token source_dir open_browser).
Proof.
  unfold_deploy.
  emits_walk ltac:(first [exact I | repeat split]).
Qed.

Lemma deploy_public_creation (username repo token source_dir : string) (open_browser : bool) :
  emits_only (public_creation username repo)
             (deploy username repo token source_dir open_browser).
Proof.
  unfold_deploy.
  emits_walk ltac:(first
    [ exact I
    | intros Hm Hu; first [discriminate Hm | simpl in Hu; discriminate Hu]
    | intros _ _; eexists; split; [reflexivity | repeat split] ]).
Qed.

Lemma deploy_no_browser (username repo token source_dir : string) :
  emits_only no_browser_call (deploy username repo token source_dir false).
Proof.
  unfold_deploy.
  emits_walk ltac:(exact I).
Qed.

Section Requests.
Variable World : Type.
Variable handle : forall X : Type, Event X -> World -> X * World.

(** X1. Every HTTP request of a run of [main] goes to a URL under
    [https://api.github.com/], carries the three headers of [github_api]
    with the token of the command line or the environment as bearer, and
    has a timeout of 15. *)
Theorem every_request_is_an_api_call (argv : Argv) (env : Environ) (w : World) :
  Forall (api_call (token (parse_args argv env)))
         (trace World handle (main argv env) w).
Proof.
  apply (wp_sound World handle (main argv env) (fun _ tr => Forall _ tr)).
  apply emits_only_wp. unfold main.
  destruct (String.eqb (token (parse_args argv env)) "").
  - exact I.
  - apply deploy_api_calls.
Qed.

(** X2. Whatever the command line, a creation request of a run of
    [main] asks for a repository with the name given, the homepage
    [https://{username}.github.io], [private] false and [auto_init]
    false: [deploy] never creates a private or an initialised
    repository. *)
Theorem creation_is_public_and_empty (argv : Argv) (env : Environ) (w : World) :
  Forall (public_creation (username (parse_args argv env)) (repo (parse_args argv env)))
         (trace World handle (main argv env) w).
Proof.
  apply (wp_sound World handle (main argv env) (fun _ tr => Forall _ tr)).
  apply emits_only_wp. unfold main.
  destruct (String.eqb (token (parse_args argv env)) "").
  - exact I.
  - apply deploy_public_creation.
Qed.

(** X3. With [--no-browser], no run of [main] sleeps or opens a
    browser, however it ends. *)
Theorem no_browser_flag_is_obeyed (argv : Argv) (env : Environ) (w : World) :
  opt_no_browser argv = true ->
  Forall no_browser_call (trace World handle (main argv env) w).
Proof.
  intros Hflag.
  apply (wp_sound World handle (main argv env) (fun _ tr => Forall _ tr)).
  apply emits_only_wp. unfold main.
  destruct (String.eqb (token (parse_args argv env)) "").
  - exact I.
  - cbn [no_browser parse_args]. rewrite Hflag. apply deploy_no_browser.
Qed.

End Requests.

(** ** More on the repository ensurer *)

Lemma ensure_requests (username repo token : string) (private : bool) :
  wp (ensure_repo_exists username repo token private)
     (fun o tr =>
        exists answer rest,
          requests tr
          = ("GET", "https://api.github.com/repos/" ++ username ++ "/" ++ repo, answer) :: rest /\
          (forall e, answer = Raise e -> rest = [] /\ o = Raise e) /\
          (forall resp, answer = Ok resp -> rest = [] ->
                        status_code resp = 200 /\ o = clone_url resp) /\
          (rest = [] \/
           exists created,
             rest = [("POST", "https://api.github.com/user/repos", created)] /\
             (forall e, created = Raise e -> o = Raise e) /\
             (forall v, o = Ok v -> exists resp, created = Ok resp /\ clone_url resp = Ok v))).
Proof.
  unfold ensure_repo_exists, github_api. wp_walk.
  all: cbn [requests collect request_info api_request]; eexists _, _;
       (split; [reflexivity |]); (split; [| split]).
  all: try (intros ? [=]; fail).
  all: try (intros ? [= <-]; split; reflexivity).
  all: try (intros ? ? [=]; fail).
  all: try (intros ? [= <-] _; split; [now apply Z.eqb_eq | reflexivity]).
  all: try (left; reflexivity).
  all: right; eexists; (split; [reflexivity |]); split;
       try (intros ? [=]; fail);
       try (intros ? [= <-]; reflexivity);
       try (intros ? Ho; eexists; split; [reflexivity | exact Ho]).
Qed.

Lemma requests_creations (tr : list Entry) : requests tr = [] -> creations tr = [].
Proof.
  unfold requests, creations.
  induction tr as [| en tr IH]; cbn [collect]; [reflexivity |].
  unfold request_answer at 1. destruct (request_info en); [discriminate | exact IH].
Qed.

Lemma refused_stable :
  Stable refused_rule (fun t => requests t = [] /\ locals t = []).
Proof.
  split.
  - intros o t tr [Hr Hl] HR resp Hin H1 H2. unfold creations in Hin.
    rewrite collect_app in Hin. fold (creations t) in Hin.
    rewrite (requests_creations t Hr) in Hin.
    destruct (HR resp Hin H1 H2) as [Hloc Ho]. split; [| exact Ho].
    unfold locals in *. now rewrite filter_app, Hl, Hloc.
  - intros e t [Hr _] resp Hin. rewrite (requests_creations t Hr) in Hin. destruct Hin.
Qed.

Lemma print_plain (line : string) :
  wp (print line) (fun _ tr => requests tr = [] /\ locals tr = []).
Proof. cbn. intros []. split; reflexivity. Qed.

Lemma ensure_refused (username repo token : string) (private : bool) :
  wp (ensure_repo_exists username repo token private)
     (fun o tr =>
        locals tr = [] /\
        forall resp,
          In (Ok resp) (creations tr) ->
          status_code resp <> 200 -> status_code resp <> 201 ->
          exists msg, o = Raise (SystemExit msg)).
Proof.
  unfold ensure_repo_exists, github_api. wp_walk.
  all: (split; [reflexivity |]);
       cbn [creations collect request_answer request_info api_request];
       cbn; intros resp Hin H1 H2; split_in Hin;
       first [discriminate Hin | injection Hin as <-].
  all: try (eexists; reflexivity).
  all: match goal with
       | E : negb ?b = false |- _ =>
           apply Z.eqb_neq in H1, H2; rewrite H1, H2 in E; discriminate E
       end.
Qed.

Lemma after_ensurer_no_creation (username repo token source_dir local_dir : string)
    (remote_url : Json) (open_browser : bool) :
  emits_only not_a_creation
    (copy_portfolio source_dir local_dir ;;
     commit_and_push remote_url token ;;
     print (nl ++ "[5/5] Enabling GitHub Pages...") ;;
     pages_url <- enable_github_pages username repo token ;;
     report pages_url open_browser).
Proof.
  unfold_deploy. emits_walk ltac:(reflexivity).
Qed.

Lemma prepare_no_creation (username repo : string) :
  emits_only not_a_creation (prepare_local username repo).
Proof. unfold_deploy. emits_walk ltac:(reflexivity). Qed.

Lemma deploy_refused (username repo token source_dir : string) (open_browser : bool) :
  wp (deploy username repo token source_dir open_browser) refused_rule.
Proof.
  unfold deploy.
  do 4 (apply (wp_head _ _ _ _ refused_stable); [apply print_plain | intros ?]).
  apply wp_bind. eapply wp_mono; [| apply ensure_refused].
  intros [remote_url | e] tr [Hloc Href].
  - eapply wp_mono;
      [| apply emits_only_wp, emits_only_bind;
         [apply prepare_no_creation | intros ?; apply after_ensurer_no_creation]].
    intros o' tr' Hsilent resp Hin H1 H2. exfalso.
    unfold creations in Hin. rewrite collect_app in Hin.
    rewrite (silent_collect _ tr' Hsilent), app_nil_r in Hin.
    destruct (Href resp Hin H1 H2) as [msg Hmsg]. discriminate Hmsg.
  - intros resp Hin H1 H2. split; [exact Hloc |].
    destruct (Href resp Hin H1 H2) as [msg [= ->]]. now exists msg.
Qed.

Section EnsurerMore.
Variable World : Type.
Variable handle : forall X : Type, Event X -> World -> X * World.
Variables username repo token : string.
Variable private : bool.

(** X4. A run of the ensurer sends the existence query first and at
    most one creation request after it, and nothing else.  An exception
    raised by the existence query ends the run with that exception and
    no creation is attempted; so does an exception raised by the
    creation request. *)
Theorem ensurer_sends_at_most_two_requests (w : World) :
  exists answer rest,
    requests (trace World handle (ensure_repo_exists username repo token private) w)
    = ("GET", "https://api.github.com/repos/" ++ username ++ "/" ++ repo, answer) :: rest /\
    (forall e, answer = Raise e ->
               rest = [] /\
               result World handle (ensure_repo_exists username repo token private) w
               = Raise e) /\
    (rest = [] \/
     exists created,
       rest = [("POST", "https://api.github.com/user/repos", created)] /\
       forall e, created = Raise e ->
                 result World handle (ensure_repo_exists username repo token private) w
                 = Raise e).
Proof.
  destruct (wp_sound World handle _ _ w (ensure_requests username repo token private))
    as (answer & rest & Hreq & Hraise & _ & Hrest).
  exists answer, rest. split; [exact Hreq |]. split; [exact Hraise |].
  destruct Hrest as [-> | (created & -> & Hc & _)]; [now left | right].
  exists created. split; [reflexivity | exact Hc].
Qed.

(** X5. The ensurer returns nothing of its own making: a value it
    returns is [resp.json()["clone_url"]] of the answer to the last
    request it sent. *)
Theorem ensurer_returns_what_the_api_gave (w : World) (v : Json) :
  result World handle (ensure_repo_exists username repo token private) w = Ok v ->
  exists method url resp,
    last (requests (trace World handle (ensure_repo_exists username repo token private) w))
         ("", "", Raise (SystemExit ""))
    = (method, url, Ok resp) /\
    clone_url resp = Ok v.
Proof.
  intros Hv.
  destruct (wp_sound World handle _ _ w (ensure_requests username repo token private))
    as (answer & rest & Hreq & Hraise & Hfound & Hrest).
  rewrite Hreq.
  destruct Hrest as [-> | (created & -> & _ & Hc)].
  - destruct answer as [resp | e].
    + eexists _, _, resp. split; [reflexivity |].
      destruct (Hfound resp eq_refl eq_refl) as [_ Ho]. congruence.
    + destruct (Hraise e eq_refl) as [_ Ho]. congruence.
  - destruct (Hc v Hv) as (resp & -> & Hcl).
    eexists _, _, resp. split; [reflexivity | exact Hcl].
Qed.

End EnsurerMore.

(** ** More on the order of a deployment *)

Lemma pages_after_push_stable (username repo : string) :
  Stable (pages_after_push_rule username repo) (before_push username repo).
Proof.
  split.
  - intros o t tr [Hp Hq] HR answer Hin. unfold no_push in Hp.
    unfold requests in Hin. rewrite collect_app in Hin.
    apply in_app_or in Hin. destruct Hin as [Hin | Hin]; [elim (Hq _ Hin) |].
    destruct (HR answer Hin) as [earlier E]. exists earlier.
    unfold pushes in *. now rewrite collect_app, Hp.
  - intros e t [_ Hq] answer Hin. elim (Hq _ Hin).
Qed.

Lemma completed_stable (username repo : string) :
  Stable (completed_rule username repo) (before_push username repo).
Proof.
  split.
  - intros o t tr [Hp Hq] [Hlen HR]. unfold no_push in Hp.
    assert (E : pushes (t ++ tr) = pushes tr).
    { unfold pushes in *. now rewrite collect_app, Hp. }
    unfold completed_rule. rewrite E. split; [exact Hlen |].
    intros Ho. destruct (HR Ho) as [Hpush [answer Hin]]. split; [exact Hpush |].
    exists answer. unfold requests. rewrite collect_app. apply in_or_app. now right.
  - intros e t [Hp _]. unfold no_push in Hp. unfold completed_rule. rewrite Hp.
    split; [cbn; lia | discriminate].
Qed.

Ltac last_push := first [exists []; reflexivity | eexists [_]; reflexivity].

Lemma order_tail (username repo token : string) (remote_url : Json) (open_browser : bool) :
  wp (commit_and_push remote_url token ;;
      print (nl ++ "[5/5] Enabling GitHub Pages...") ;;
      pages_url <- enable_github_pages username repo token ;;
      report pages_url open_browser)
     (fun o tr => pages_after_push_rule username repo o tr /\ completed_rule username repo o tr).
Proof.
  unfold commit_and_push, attach_remote, push_main, enable_github_pages, report, github_api.
  wp_walk.
  all: split.
  all: lazymatch goal with
       | |- pages_after_push_rule _ _ _ _ =>
           unfold pages_after_push_rule;
           cbn [requests pushes collect request_info push_call api_request];
           intros answer Hin; split_in Hin; last_push
       | |- completed_rule _ _ _ _ =>
           unfold completed_rule;
           cbn [requests pushes collect request_info push_call api_request];
           split;
           [ cbn [length]; lia
           | intros Ho; first
               [ discriminate Ho
               | split; [last_push | eexists; in_trace] ] ]
       end.
Qed.

Ltac skip_before_push stable lemma :=
  apply (wp_head _ _ _ _ stable);
  [ eapply wp_mono; [| apply lemma; try reflexivity];
    cbn beta; unfold before_push; intros; tauto
  | intros ? ].

Lemma deploy_order (username repo token source_dir : string) (open_browser : bool) :
  wp (deploy username repo token source_dir open_browser)
     (pages_after_push_rule username repo).
Proof.
  unfold deploy.
  do 4 skip_before_push (pages_after_push_stable username repo) (print_quiet username repo).
  skip_before_push (pages_after_push_stable username repo)
                   (ensure_quiet username repo token false).
  skip_before_push (pages_after_push_stable username repo) (prepare_quiet username repo).
  skip_before_push (pages_after_push_stable username repo)
                   (copy_quiet username repo source_dir).
  eapply wp_mono; [| apply order_tail]. cbn beta. intros; tauto.
Qed.

Lemma deploy_completed (username repo token source_dir : string) (open_browser : bool) :
  wp (deploy username repo token source_dir open_browser) (completed_rule username repo).
Proof.
  unfold deploy.
  do 4 skip_before_push (completed_stable username repo) (print_quiet username repo).
  skip_before_push (completed_stable username repo) (ensure_quiet username repo token false).
  skip_before_push (completed_stable username repo) (prepare_quiet username repo).
  skip_before_push (completed_stable username repo) (copy_quiet username repo source_dir).
  eapply wp_mono; [| apply order_tail]. cbn beta. intros; tauto.
Qed.

(** ** The workspace *)

Lemma ensurer_no_fs (username repo token : string) (private : bool) :
  emits_only not_a_fs_call (ensure_repo_exists username repo token private).
Proof. unfold_deploy. emits_walk ltac:(reflexivity). Qed.

Lemma publish_no_fs (username repo token : string) (remote_url : Json) (open_browser : bool) :
  emits_only not_a_fs_call
    (commit_and_push remote_url token ;;
     print (nl ++ "[5/5] Enabling GitHub Pages...") ;;
     pages_url <- enable_github_pages username repo token ;;
     report pages_url open_browser).
Proof. unfold_deploy. emits_walk ltac:(reflexivity). Qed.

Lemma confined_stable (repo : string) :
  Stable (fun _ tr => confined repo (fs_calls tr)) (fun t => fs_calls t = []).
Proof.
  split.
  - intros o t tr Ht HR. unfold fs_calls in *. now rewrite collect_app, Ht.
  - intros e t Ht. now rewrite Ht.
Qed.

Lemma print_no_fs (line : string) : wp (print line) (fun _ tr => fs_calls tr = []).
Proof. cbn. intros []. reflexivity. Qed.

Ltac confined_leaf :=
  cbn [confined fs_calls collect fs_call app];
  first
    [ exact I
    | split;
      [ repeat (constructor; try reflexivity)
      | let H := fresh "H" in
        intros ? H; split_in H; first [discriminate H | injection H as <-; in_trace] ] ].

Lemma deploy_confined (username repo token source_dir : string) (open_browser : bool) :
  wp (deploy username repo token source_dir open_browser)
     (fun _ tr => confined repo (fs_calls tr)).
Proof.
  unfold deploy.
  do 4 (apply (wp_head _ _ _ _ (confined_stable repo)); [apply print_no_fs | intros ?]).
  apply (wp_head _ _ _ _ (confined_stable repo)).
  { eapply wp_mono; [| apply emits_only_wp, ensurer_no_fs].
    intros o tr H. exact (silent_collect _ tr H). }
  intros remote_url.
  apply wp_bind. unfold prepare_local. wp_walk.
  all: try confined_leaf.
  all: apply wp_bind; unfold copy_portfolio; wp_walk.
  all: try confined_leaf.
  all: (eapply wp_mono;
        [| apply emits_only_wp, (publish_no_fs username repo token remote_url open_browser)]);
       intros o tr H; apply silent_collect in H;
       unfold fs_calls; rewrite !collect_app; fold fs_call; rewrite H;
       confined_leaf.
Qed.

Section DeployMore.
Variable World : Type.
Variable handle : forall X : Type, Event X -> World -> X * World.
Variables username repo token source_dir : string.
Variable open_browser : bool.

(** X6. A run of [deploy] whose creation request is answered with a
    status other than 200 and 201 ends by [sys.exit], and up to then it
    has only printed and sent requests: no directory is removed or made,
    no git command is run. *)
Theorem refused_creation_touches_nothing (w : World) (resp : Response) :
  In (Ok resp)
     (creations (trace World handle
                   (deploy username repo token source_dir open_browser) w)) ->
  status_code resp <> 200 -> status_code resp <> 201 ->
  locals (trace World handle (deploy username repo token source_dir open_browser) w) = [] /\
  exists msg,
    result World handle (deploy username repo token source_dir open_browser) w
    = Raise (SystemExit msg).
Proof.
  exact (wp_sound World handle _ _ w
           (deploy_refused username repo token source_dir open_browser) resp).
Qed.

(** X7. In a run of [deploy] the pages request is sent only after a
    push has gone through: if the request is in the trace, the last push
    of the run succeeded. *)
Theorem pages_enabled_only_after_push (w : World) (answer : outcome Response) :
  In ("POST", "https://api.github.com/repos/" ++ username ++ "/" ++ repo ++ "/pages", answer)
     (requests (trace World handle
                  (deploy username repo token source_dir open_browser) w)) ->
  exists earlier,
    pushes (trace World handle (deploy username repo token source_dir open_browser) w)
    = (earlier ++ [("origin", "main:main", true, Ok tt)])%list.
Proof.
  exact (wp_sound World handle _ _ w
           (deploy_order username repo token source_dir open_browser) answer).
Qed.

(** X8. No run of [deploy] pushes more than twice; and a run that
    returns has had its last push go through and has had an answer to
    its pages request.  (That answer may be any status: a returning run
    does not mean that the pages site is enabled.) *)
Theorem returning_run_has_pushed (w : World) :
  (length (pushes (trace World handle
                     (deploy username repo token source_dir open_browser) w)) <= 2)%nat /\
  (result World handle (deploy username repo token source_dir open_browser) w = Ok tt ->
   (exists earlier,
       pushes (trace World handle (deploy username repo token source_dir open_browser) w)
       = (earlier ++ [("origin", "main:main", true, Ok tt)])%list) /\
   exists answer,
     In ("POST", "https://api.github.com/repos/" ++ username ++ "/" ++ repo ++ "/pages",
         Ok answer)
        (requests (trace World handle
                     (deploy username repo token source_dir open_browser) w))).
Proof.
  exact (wp_sound World handle _ _ w
           (deploy_completed username repo token source_dir open_browser)).
Qed.

(** X9. The file-system calls of a run of [deploy] stay in the
    workspace: after asking for the home directory, every [exists],
    [rmtree], [mkdir] and [Repo.init] is on [~/{repo}_deploy], every copy
    goes to [index.html] in it, and [rmtree] is called only when
    [exists] answered true. *)
Theorem deploy_stays_in_workspace (w : World) :
  confined repo
    (fs_calls (trace World handle (deploy username repo token source_dir open_browser) w)).
Proof.
  exact (wp_sound World handle _ _ w
           (deploy_confined username repo token source_dir open_browser)).
Qed.

(** X10. An exception raised by the pages request itself (no answer at
    all) is not caught: the enabler prints nothing and raises it, unlike
    an answer with an error status. *)
Theorem pages_request_exception_propagates (w w1 : World) (e : exn) :
  handle _ (pages_request username repo token) w = (Raise e, w1) ->
  run World handle (enable_github_pages username repo token) w
  = (Raise e, w1, [Called (pages_request username repo token) (Raise e)]).
Proof.
  intros H. unfold pages_request in *.
  unfold enable_github_pages, github_api, attempt.
  cbn [bind run]. rewrite H. reflexivity.
Qed.

(** X11. When the pages request is answered with a status other than
    201 and 422, the enabler prints two lines and no more: one holding
    the status code and the body of the answer, one holding the settings
    page [https://github.com/{username}/{repo}/settings/pages]. *)
Theorem pages_failure_is_reported (w w1 : World) (resp : Response) :
  handle _ (pages_request username repo token) w = (Ok resp, w1) ->
  status_code resp <> 201 -> status_code resp <> 422 ->
  exists line1 line2,
    trace World handle (enable_github_pages username repo token) w
    = [Called (pages_request username repo token) (Ok resp);
       Called (Print line1) tt; Called (Print line2) tt] /\
    Infix (str_of_int (status_code resp)) line1 /\ Infix (text resp) line1 /\
    Infix ("https://github.com/" ++ username ++ "/" ++ repo ++ "/settings/pages") line2.
Proof.
  intros H H1 H2. unfold pages_request in *.
  unfold trace, enable_github_pages, github_api, attempt.
  cbn [bind run]. rewrite H. cbn [bind run].
  apply Z.eqb_neq in H1, H2. rewrite H1, H2. unfold print, call, ret. cbn [orb bind run].
  repeat match goal with
         | |- context [handle unit ?ev ?v] =>
             destruct (handle unit ev v) as [[] ?]; cbn [bind run]
         end.
  cbn [snd]. eexists _, _. split; [reflexivity |]. split; [| split].
  - apply Infix_middle.
  - rewrite <- !append_assoc. apply Infix_end.
  - exists "    You can enable Pages manually at: ", "".
    rewrite append_empty_r. reflexivity.
Qed.

End DeployMore.

(** ** More on the publisher *)

Lemma publish_edges (remote_url : Json) (token : string) :
  wp (commit_and_push remote_url token)
     (fun o tr =>
        (forall clone,
            remote_url = JStr clone -> occurs "https://" clone = false ->
            Forall (fun c => match c with
                             | Created _ url _ => url = clone
                             | UrlSet _ url _ => url = clone
                             | Looked _ _ => True
                             end) (remote_calls tr)) /\
        ((forall clone, remote_url <> JStr clone) ->
         remote_calls tr = [] /\ pushes tr = [] /\
         (commits tr = [Ok tt] -> o = Raise (OtherError "AttributeError" "replace")))).
Proof.
  unfold commit_and_push, attach_remote, push_main.
  destruct remote_url; wp_walk.
  all: cbn [remote_calls pushes commits collect remote_call push_call commit_answer].
  all: split;
       [ intros clone Hc Hocc;
         first
           [ discriminate Hc
           | injection Hc as ->; try rewrite (replace_absent _ _ _ Hocc); repeat constructor ]
       | intros Hn;
         first
           [ exfalso; eapply Hn; reflexivity
           | repeat split; intros; congruence ] ].
Qed.

Section PublisherMore.
Variable World : Type.
Variable handle : forall X : Type, Event X -> World -> X * World.

(** X12. A clone URL that holds no [https://] (an [http://] or an ssh
    URL) is used as it is: the remote is created, or its URL set, with
    the clone URL itself, and the credential is in none of them. *)
Theorem other_schemes_get_no_credential (clone token : string) (w : World) :
  occurs "https://" clone = false ->
  Forall (fun c => match c with
                   | Created _ url _ => url = clone
                   | UrlSet _ url _ => url = clone
                   | Looked _ _ => True
                   end)
         (remote_calls (trace World handle (commit_and_push (JStr clone) token) w)).
Proof.
  intros Hocc.
  destruct (wp_sound World handle _ _ w (publish_edges (JStr clone) token)) as [H _].
  exact (H clone eq_refl Hocc).
Qed.

(** X13. A [clone_url] that is not a string (a number, [null], a list)
    is found out late: the files are staged and committed first, then
    [.replace] raises [AttributeError]; no remote is attached and nothing
    is pushed. *)
Theorem clone_url_of_another_type_fails_after_commit (remote_url : Json) (token : string)
    (w : World) :
  (forall clone, remote_url <> JStr clone) ->
  remote_calls (trace World handle (commit_and_push remote_url token) w) = [] /\
  pushes (trace World handle (commit_and_push remote_url token) w) = [] /\
  (commits (trace World handle (commit_and_push remote_url token) w) = [Ok tt] ->
   result World handle (commit_and_push remote_url token) w
   = Raise (OtherError "AttributeError" "replace")).
Proof.
  intros Hn.
  destruct (wp_sound World handle _ _ w (publish_edges remote_url token)) as [_ H].
  exact (H Hn).
Qed.

End PublisherMore.

(** ** The hook of [rmtree] and the command line *)

Section Hook.
Variable World : Type.
Variable handle : forall X : Type, Event X -> World -> X * World.

Lemma run_try_except {A : Type} (p handler : Prog A) (catches : exn -> bool) :
  forall w,
    run World handle (try_except p catches handler) w =
    match run World handle p w with
    | (Ok a, w1, t1) => (Ok a, w1, t1)
    | (Raise e, w1, t1) =>
        if catches e
        then let '(o, w2, t2) := run World handle handler w1 in (o, w2, (t1 ++ t2)%list)
        else (Raise e, w1, t1)
    end.
Proof.
  induction p as [[a | e] | X e k IH]; intros w; cbn [try_except run].
  - reflexivity.
  - destruct (catches e); [| reflexivity].
    destruct (run World handle handler w) as [[o w2] t2]. reflexivity.
  - destruct (handle X e w) as [x w1]. rewrite IH.
    destruct (run World handle (k x) w1) as [[[a | e'] w2] t1]; [reflexivity |].
    destruct (catches e'); [| reflexivity].
    destruct (run World handle handler w2) as [[o w3] t2]. reflexivity.
Qed.

(** X14. [_handle_remove_readonly] calls [func(path)] whether
    [os.chmod] went through or raised an [OSError], and its outcome is
    then that of [func]; an exception of [os.chmod] that is not an
    [OSError] is raised instead, and [func] is not called. *)
Theorem remove_readonly_retries_after_chmod
    (chmod : string -> Z -> Prog unit) (os_error : exn -> bool)
    (func : string -> Prog unit) (path : string) (exc_info : exn)
    (w w1 : World) (changed : outcome unit) (t1 : list Entry) :
  run World handle (chmod path 448) w = (changed, w1, t1) ->
  (match changed with Ok _ => True | Raise e => os_error e = true end ->
   run World handle (_handle_remove_readonly chmod os_error func path exc_info) w
   = (let '(o, w2, t2) := run World handle (func path) w1 in (o, w2, (t1 ++ t2)%list))) /\
  (forall e, changed = Raise e -> os_error e = false ->
             run World handle (_handle_remove_readonly chmod os_error func path exc_info) w
             = (Raise e, w1, t1)).
Proof.
  intros Hch. unfold _handle_remove_readonly.
  rewrite run_bind, run_try_except, Hch. split.
  - destruct changed as [[] | e]; intros Hc.
    + reflexivity.
    + rewrite Hc. cbn [ret run]. rewrite app_nil_r. reflexivity.
  - intros e -> He. rewrite He. reflexivity.
Qed.

(** X15. A token given by [--token] is the one used, whatever
    [GITHUB_TOKEN] holds: every request carries it as bearer.  This goes
    for the empty string too: with [--token ""] the run ends by
    [sys.exit] before any call, even when [GITHUB_TOKEN] holds a token. *)
Theorem flag_token_overrides_environment (argv : Argv) (env : Environ) (flag : string)
    (w : World) :
  opt_token argv = Some flag ->
  Forall (api_call flag) (trace World handle (main argv env) w) /\
  (flag = "" ->
   run World handle (main argv env) w = (Raise (SystemExit token_required), w, [])).
Proof.
  intros Hflag.
  assert (E : token (parse_args argv env) = flag).
  { unfold parse_args. cbn [token]. now rewrite Hflag. }
  split.
  - rewrite <- E.
    apply (wp_sound World handle (main argv env) (fun _ tr => Forall _ tr)).
    apply emits_only_wp. unfold main.
    destruct (String.eqb (token (parse_args argv env)) ""); [exact I |].
    apply deploy_api_calls.
  - intros ->. unfold main. rewrite E. reflexivity.
Qed.

End Hook.

(** ** Runs of the above *)

Lemma no_browser_flag_is_obeyed_witness :
  Forall no_browser_call
    (trace Demo.World Demo.handle (main Offline.quiet_argv Demo.bare_environ) Demo.existing).
Proof.
  apply (no_browser_flag_is_obeyed Demo.World Demo.handle
           Offline.quiet_argv Demo.bare_environ Demo.existing).
  reflexivity.
Defined.

Lemma ensurer_returns_what_the_api_gave_witness :
  exists method url resp,
    last (requests (trace Demo.World Demo.handle
                      (ensure_repo_exists "alice" "portfolio" "t0ken" false) Demo.fresh))
         ("", "", Raise (SystemExit ""))
    = (method, url, Ok resp) /\
    clone_url resp = Ok (JStr "https://github.com/alice/portfolio.git").
Proof.
  apply (ensurer_returns_what_the_api_gave Demo.World Demo.handle
           "alice" "portfolio" "t0ken" false Demo.fresh).
  reflexivity.
Defined.

Lemma refused_creation_touches_nothing_witness :
  locals (trace Demo.World Demo.handle
            (deploy "alice" "portfolio" "t0ken" "/home/alice/site" true) Demo.forbidden)
  = [].
Proof.
  destruct (refused_creation_touches_nothing Demo.World Demo.handle
              "alice" "portfolio" "t0ken" "/home/alice/site" true
              Demo.forbidden (Demo.response 403)) as [H _].
  - left. reflexivity.
  - discriminate.
  - discriminate.
  - exact H.
Defined.

Lemma pages_enabled_only_after_push_witness :
  exists earlier,
    pushes (trace Demo.World Demo.handle
              (deploy "alice" "portfolio" "t0ken" "/home/alice/site" true)
              Demo.master_branch)
    = (earlier ++ [("origin", "main:main", true, Ok tt)])%list.
Proof.
  apply (pages_enabled_only_after_push Demo.World Demo.handle
           "alice" "portfolio" "t0ken" "/home/alice/site" true
           Demo.master_branch (Ok (Demo.response 201))).
  right. left. reflexivity.
Defined.

Lemma returning_run_has_pushed_witness :
  exists answer,
    In ("POST", "https://api.github.com/repos/alice/portfolio/pages", Ok answer)
       (requests (trace Demo.World Demo.handle
                    (deploy "alice" "portfolio" "t0ken" "/home/alice/site" true)
                    Demo.pages_refused)).
Proof.
  destruct (returning_run_has_pushed Demo.World Demo.handle
              "alice" "portfolio" "t0ken" "/home/alice/site" true Demo.pages_refused)
    as [_ H].
  destruct (H eq_refl) as [_ Hin]. exact Hin.
Defined.

Lemma pages_request_exception_propagates_witness :
  result Demo.World Offline.handle
    (enable_github_pages "alice" "portfolio" "t0ken") Demo.existing
  = Raise (OtherError "ConnectionError" "no route to host").
Proof.
  unfold result.
  rewrite (pages_request_exception_propagates Demo.World Offline.handle
             "alice" "portfolio" "t0ken" Demo.existing Demo.existing
             (OtherError "ConnectionError" "no route to host") eq_refl).
  reflexivity.
Defined.

Lemma pages_failure_is_reported_witness :
  exists line1 line2,
    trace Demo.World Demo.handle
      (enable_github_pages "alice" "portfolio" "t0ken") Demo.pages_refused
    = [Called (pages_request "alice" "portfolio" "t0ken") (Ok (Demo.response 500));
       Called (Print line1) tt; Called (Print line2) tt] /\
    Infix "500" line1 /\
    Infix "https://github.com/alice/portfolio/settings/pages" line2.
Proof.
  destruct (pages_failure_is_reported Demo.World Demo.handle
              "alice" "portfolio" "t0ken" Demo.pages_refused Demo.pages_refused
              (Demo.response 500) eq_refl) as (line1 & line2 & T & I1 & _ & I2).
  - discriminate.
  - discriminate.
  - exists line1, line2. split; [exact T |]. split; [exact I1 | exact I2].
Defined.

Lemma other_schemes_get_no_credential_witness :
  remote_calls (trace Demo.World Demo.handle
                  (commit_and_push (JStr "git@github.com:alice/portfolio.git") "t0ken")
                  Demo.existing)
  = [Created "origin" "git@github.com:alice/portfolio.git" (Ok tt)] /\
  Forall (fun c => match c with
                   | Created _ url _ => url = "git@github.com:alice/portfolio.git"
                   | UrlSet _ url _ => url = "git@github.com:alice/portfolio.git"
                   | Looked _ _ => True
                   end)
         (remote_calls (trace Demo.World Demo.handle
                          (commit_and_push (JStr "git@github.com:alice/portfolio.git") "t0ken")
                          Demo.existing)).
Proof.
  split; [reflexivity |].
  apply (other_schemes_get_no_credential Demo.World Demo.handle
           "git@github.com:alice/portfolio.git" "t0ken" Demo.existing).
  reflexivity.
Defined.

Lemma clone_url_of_another_type_fails_after_commit_witness :
  result Demo.World Demo.handle (commit_and_push (JNum 7) "t0ken") Demo.existing
  = Raise (OtherError "AttributeError" "replace").
Proof.
  destruct (clone_url_of_another_type_fails_after_commit Demo.World Demo.handle
              (JNum 7) "t0ken" Demo.existing) as (_ & _ & H).
  - discriminate.
  - apply H. reflexivity.
Defined.

Lemma remove_readonly_retries_after_chmod_witness :
  run Demo.World Demo.handle
    (_handle_remove_readonly Offline.chmod_refused Offline.os_error Offline.unlink
       "/home/alice/portfolio_deploy/.git/objects/pack/pack-1.idx"
       (OtherError "PermissionError" "Access is denied"))
    Demo.existing
  = (Ok tt, Demo.existing,
     [Called (RmTree "/home/alice/portfolio_deploy/.git/objects/pack/pack-1.idx") (Ok tt)]).
Proof.
  destruct (remove_readonly_retries_after_chmod Demo.World Demo.handle
              Offline.chmod_refused Offline.os_error Offline.unlink
              "/home/alice/portfolio_deploy/.git/objects/pack/pack-1.idx"
              (OtherError "PermissionError" "Access is denied")
              Demo.existing Demo.existing
              (Raise (OtherError "PermissionError"
                        "/home/alice/portfolio_deploy/.git/objects/pack/pack-1.idx"))
              [] eq_refl) as [H _].
  rewrite H; reflexivity.
Defined.

Lemma flag_token_overrides_environment_witness :
  run Demo.World Demo.handle (main Offline.empty_flag_argv Offline.token_environ)
    Demo.existing
  = (Raise (SystemExit token_required), Demo.existing, []).
Proof.
  destruct (flag_token_overrides_environment Demo.World Demo.handle
              Offline.empty_flag_argv Offline.token_environ "" Demo.existing eq_refl)
    as [_ H].
  exact (H eq_refl).
Defined.

Lemma ensurer_sends_at_most_two_requests_witness :
  requests (trace Demo.World Offline.handle
              (ensure_repo_exists "alice" "portfolio" "t0ken" false) Demo.existing)
  = [("GET", "https://api.github.com/repos/alice/portfolio",
      Raise (OtherError "ConnectionError" "no route to host"))] /\
  exists answer rest,
    requests (trace Demo.World Offline.handle
                (ensure_repo_exists "alice" "portfolio" "t0ken" false) Demo.existing)
    = ("GET", "https://api.github.com/repos/" ++ "alice" ++ "/" ++ "portfolio", answer)
      :: rest.
Proof.
  split; [reflexivity |].
  destruct (ensurer_sends_at_most_two_requests Demo.World Offline.handle
              "alice" "portfolio" "t0ken" false Demo.existing)
    as (answer & rest & H & _).
  exists answer, rest. exact H.
Defined.

Lemma deploy_stays_in_workspace_witness :
  fs_calls (trace Demo.World Demo.handle
              (deploy "alice" "portfolio" "t0ken" "/home/alice/site" true) Demo.existing)
  = [FsHome "/home/alice";
     FsExists "/home/alice/portfolio_deploy" false;
     FsMake "/home/alice/portfolio_deploy";
     FsInit "/home/alice/portfolio_deploy";
     FsCopy "/home/alice/portfolio_deploy/index.html"] /\
  confined "portfolio"
    (fs_calls (trace Demo.World Demo.handle
                 (deploy "alice" "portfolio" "t0ken" "/home/alice/site" true)
                 Demo.existing)).
Proof.
  split; [reflexivity |].
  apply (deploy_stays_in_workspace Demo.World Demo.handle
           "alice" "portfolio" "t0ken" "/home/alice/site" true Demo.existing).
Defined.
